(** * AI Agent Dashboard: the search / extraction pipeline of [agent.py]

    A shallow embedding of [src/agent.py].  Python text is a list of Unicode
    code points, the collaborators (HTTP proxy, HTML parser, language model,
    pandas, Google Sheets, [eval]) are oracles gathered in a [world] record,
    and every function of the program is a computation in a small
    state / trace / exception monad whose state is Streamlit's session. *)

From Stdlib Require Import ZArith QArith Ascii String DecimalString Sorting.Sorted.
From stdpp Require Import base list.

Local Open Scope N_scope.
Local Open Scope list_scope.

(** ** Python text *)

Module PyStr.

(** A [str] is a sequence of code points. *)
Abbreviation pystr := (list N).

Definition lit (s : string) : pystr :=
  List.map N_of_ascii (list_ascii_of_string s).

Definition nl : pystr := [10].

(** [str.isspace] on one code point (CPython's [_PyUnicode_IsWhitespace]). *)
Definition is_space (c : N) : bool :=
  ((9 <=? c) && (c <=? 13)) || ((28 <=? c) && (c <=? 32))
  || (c =? 133) || (c =? 160) || (c =? 5760)
  || ((8192 <=? c) && (c <=? 8202))
  || (c =? 8232) || (c =? 8233) || (c =? 8239) || (c =? 8287)
  || (c =? 12288).

Fixpoint lstrip (s : pystr) : pystr :=
  match s with
  | [] => []
  | c :: s' => if is_space c then lstrip s' else s
  end.

Definition rstrip (s : pystr) : pystr := rev (lstrip (rev s)).

(** [s.strip()] *)
Definition strip (s : pystr) : pystr := rstrip (lstrip s).

(** [s.startswith(p)] *)
Fixpoint startswith (p s : pystr) : bool :=
  match p, s with
  | [], _ => true
  | _ :: _, [] => false
  | a :: p', b :: s' => (a =? b) && startswith p' s'
  end.

(** [s.replace(old, new)] for a non-empty [old]: every non-overlapping
    occurrence, leftmost first.  [skip] counts the characters of a matched
    occurrence still to be dropped. *)
Fixpoint replace_from (old new : pystr) (skip : nat) (s : pystr) : pystr :=
  match s with
  | [] => []
  | c :: s' =>
      match skip with
      | S k => replace_from old new k s'
      | O =>
          if startswith old s
          then new ++ replace_from old new (pred (length old)) s'
          else c :: replace_from old new 0 s'
      end
  end.

Definition replace (old new s : pystr) : pystr := replace_from old new 0 s.

(** [sep.join(parts)] *)
Fixpoint join (sep : pystr) (parts : list pystr) : pystr :=
  match parts with
  | [] => []
  | [p] => p
  | p :: rest => p ++ sep ++ join sep rest
  end.

(** [s.split(sep)] for a one-character separator. *)
Fixpoint split_on (sep : N) (s : pystr) : list pystr :=
  match s with
  | [] => [[]]
  | c :: s' =>
      if c =? sep then [] :: split_on sep s'
      else match split_on sep s' with
           | [] => [[c]]
           | w :: ws => (c :: w) :: ws
           end
  end.

End PyStr.
Import PyStr.

(** ** Data model *)

(** A value of a pandas column: the loader yields text, integers, booleans or
    floats; a float is carried with the text [str] renders it as. *)
Inductive cell :=
| CellStr (s : pystr)
| CellInt (z : Z)
| CellBool (b : bool)
| CellFloat (repr : pystr).

(** [str(entity)] *)
Definition py_str (c : cell) : pystr :=
  match c with
  | CellStr s => s
  | CellInt z => lit (NilZero.string_of_int (Z.to_int z))
  | CellBool true => lit "True"
  | CellBool false => lit "False"
  | CellFloat repr => repr
  end.

(** The dict [{'title': .., 'link': .., 'snippet': ..}] of [search_web]. *)
Record SearchResultRecord := mkResult
  { title : pystr; link : pystr; snippet : pystr }.

(** The dict [{"entity": .., "search_results": ..}] of the search loop. *)
Record SearchBatchRecord := mkBatch
  { entity : cell; search_results : list SearchResultRecord }.

(** The dict [{"entity": .., "extracted_info": ..}] of the extraction loop. *)
Record ExtractionRecord := mkExtraction
  { result_entity : cell; extracted_info : pystr }.

(** A table: its columns in order, each a label and its values. *)
Abbreviation DataFrame := (list (pystr * list cell)).

(** An opaque Python object (what [eval] returns, a credentials object, a
    service handle), named by its [repr]. *)
Inductive pyvalue := PyObj (repr : pystr).

(** [st.session_state]: a key that is absent and a key bound to [None] are
    both [None], since [main] binds absent keys to [None] before reading. *)
Record session := mkSession
  { processed_results : option (list ExtractionRecord);
    current_search_results : option (list SearchBatchRecord) }.

(** ** Exceptions and observable events *)

Inductive exn_class :=
| RequestException | UnicodeDecodeError | EmptyDataError | ParserError
| IndexError | AttributeError | KeyError | ZeroDivisionError | OtherError.

(** An exception object; [exn_msg] is what [str(e)] gives. *)
Record exn := mkExn { exn_cls : exn_class; exn_msg : pystr }.

Inductive outcome (A : Type) :=
| Ret (a : A)
| Raise (e : exn).
Arguments Ret {A} a.
Arguments Raise {A} e.

Inductive encoding := Utf8 | Latin1.

Inductive event :=
| EvHttpGet (url : pystr)
| EvChat (prompt : pystr)
| EvProgressInit
| EvProgress (value : Q)
| EvSleep
| EvWarning (msg : pystr)
| EvError (msg : pystr)
| EvSuccess (msg : pystr)
| EvPreview (r : SearchResultRecord)
| EvReadCsv (enc : encoding)
| EvEval (source : pystr)
| EvCredentials (info : pyvalue)
| EvBuild (credentials : pyvalue)
| EvSheetsGet (sheet_id : pystr)
| EvSheetsAppend (sheet_id : pystr) (rows : list (cell * pystr))
| EvStoreBatch (batch : list SearchBatchRecord)
| EvStoreProcessed (records : list ExtractionRecord).

(** One [div class="g"] as the three [find] calls of [search_web] see it:
    the text of its [h3], its first [a] (and that element's [href], when it
    has one), the text of its snippet [div]; or the exception they raise. *)
Record div_view := mkDiv
  { div_fault : option exn;
    title_elem : option pystr;
    link_elem : option (option pystr);
    snippet_elem : option pystr }.

(** The collaborators, as one run of the script meets them.  The calls made
    inside a loop take the loop index, so that the same request may be
    answered differently for different rows.  An exception they raise is an
    instance of [Exception].  [python_eval] gives the value of the evaluated
    text or the exception it raises; what the text does besides, to the
    session or to the interpreter, is not part of the oracle's answer, only
    the event [EvEval] records that the text was run. *)
Record world := mkWorld
  { requests_get : nat -> pystr -> outcome pystr;
    find_result_divs : pystr -> outcome (list div_view);
    chat_create : nat -> pystr -> outcome (list (option pystr));
    read_csv : list N -> encoding -> outcome DataFrame;
    python_eval : pystr -> outcome pyvalue;
    from_service_account_info : pyvalue -> outcome pyvalue;
    build : pyvalue -> outcome pyvalue;
    sheets_get : pyvalue -> pystr -> outcome (list (list pystr));
    sheets_append : pyvalue -> pystr -> list (cell * pystr) -> outcome unit;
    make_dataframe : list (list pystr) -> list pystr -> outcome DataFrame }.

(** ** The monad: session state, event trace, exceptions *)

Module Py.

Definition M (A : Type) : Type := session -> outcome A * session * list event.

Definition ret {A} (a : A) : M A := fun s => (Ret a, s, []).

Definition bind {A B} (m : M A) (k : A -> M B) : M B :=
  fun s =>
    match m s with
    | (Ret a, s1, t1) =>
        match k a s1 with
        | (r, s2, t2) => (r, s2, t1 ++ t2)
        end
    | (Raise e, s1, t1) => (Raise e, s1, t1)
    end.

Definition raise {A} (e : exn) : M A := fun s => (Raise e, s, []).

Definition emit (ev : event) : M unit := fun s => (Ret tt, s, [ev]).

(** An oracle's answer enters the computation after the call is logged. *)
Definition call {A} (ev : event) (r : outcome A) : M A :=
  fun s => (r, s, [ev]).

(** [try: m  except Exception as e: h e] restricted to the classes [sel]. *)
Definition try_except {A} (m : M A) (sel : exn -> bool) (h : exn -> M A) : M A :=
  fun s =>
    match m s with
    | (Raise e, s1, t1) =>
        if sel e then
          match h e s1 with
          | (r, s2, t2) => (r, s2, t1 ++ t2)
          end
        else (Raise e, s1, t1)
    | r => r
    end.

Definition try_catch {A} (m : M A) (h : exn -> M A) : M A :=
  try_except m (fun _ => true) h.

(** A library call that leaves no event of its own. *)
Definition quiet {A} (r : outcome A) : M A := fun s => (r, s, []).

Definition get : M session := fun s => (Ret s, s, []).

Definition put (s' : session) (ev : event) : M unit :=
  fun _ => (Ret tt, s', [ev]).

End Py.
Import Py.

Declare Scope py_scope.
Delimit Scope py_scope with py.
Notation "x <- c1 ;; c2" := (bind c1 (fun x => c2))
  (at level 100, c1 at next level, right associativity) : py_scope.
Notation "c1 ;; c2" := (bind c1 (fun _ => c2))
  (at level 100, right associativity) : py_scope.
Local Open Scope py_scope.

(** ** Built-ins and Streamlit calls *)

(** [l[i]] *)
Definition py_index {A} (l : list A) (i : nat) : M A :=
  match l !! i with
  | Some x => ret x
  | None => raise (mkExn IndexError (lit "list index out of range"))
  end.

(** [a / b] on two non-negative integers; the quotient is kept exact. *)
Definition py_truediv (a b : nat) : M Q :=
  match b with
  | O => raise (mkExn ZeroDivisionError (lit "division by zero"))
  | S _ => ret (Z.of_nat a # Pos.of_nat b)
  end.

Definition st_warning (msg : pystr) : M unit := emit (EvWarning msg).
Definition st_error (msg : pystr) : M unit := emit (EvError msg).
Definition st_success (msg : pystr) : M unit := emit (EvSuccess msg).
Definition time_sleep : M unit := emit EvSleep.

Definition is_empty {A} (l : list A) : bool :=
  match l with [] => true | _ => false end.

(** ** [WebSearcher.search_web] (lines 14-67) *)

(** The body of the inner [try] for one result [div] (lines 37-52):
    [None] is the [continue] of a link that is not a web address. *)
Definition parse_result (result : div_view) : M (option SearchResultRecord) :=
  match div_fault result with
  | Some e => raise e
  | None =>
      let title :=
        match title_elem result with Some t => t | None => lit "No title" end in
      let link :=
        match link_elem result with
        | Some (Some href) => href
        | _ => lit "No link"
        end in
      let snippet :=
        match snippet_elem result with
        | Some t => t
        | None => lit "No snippet"
        end in
      if negb (startswith (lit "http") link) then ret None
      else ret (Some (mkResult title link snippet))
  end.

(** The loop of lines 35-55, appending to [search_results]. *)
Fixpoint parse_results (results : list div_view)
    (search_results : list SearchResultRecord) : M (list SearchResultRecord) :=
  match results with
  | [] => ret search_results
  | result :: rest =>
      parsed <- try_catch (parse_result result)
                  (fun e =>
                     st_warning (lit "Error parsing individual result: "
                                 ++ exn_msg e) ;;
                     ret None) ;;
      parse_results rest
        (match parsed with
         | Some r => search_results ++ [r]
         | None => search_results
         end)
  end.

Definition search_url (query api_key : pystr) : pystr :=
  lit "https://api.scraperapi.com?api_key=" ++ api_key
  ++ lit "&url=https://www.google.com/search?q=" ++ query.

Definition is_request_exception (e : exn) : bool :=
  match exn_cls e with RequestException => true | _ => false end.

Definition search_web (w : world) (idx : nat) (query api_key : pystr)
  : M (list SearchResultRecord) :=
  let url := search_url query api_key in
  try_catch
    (text <- call (EvHttpGet url) (requests_get w idx url) ;;
     if is_empty (strip text) then
       st_warning (lit "Empty response for query: " ++ query) ;;
       ret []
     else
       results <- quiet (find_result_divs w text) ;;
       search_results <- parse_results results [] ;;
       (if is_empty search_results
        then st_warning (lit "No search results found for query: " ++ query)
        else ret tt) ;;
       ret (take 5 search_results))
    (fun e =>
       if is_request_exception e then
         st_error (lit "Error fetching search results: " ++ exn_msg e) ;;
         ret []
       else
         st_error (lit "Error parsing search results: " ++ exn_msg e) ;;
         ret []).

(** ** [DataLoader] (lines 71-104) *)

Definition is_unicode_decode_error (e : exn) : bool :=
  match exn_cls e with UnicodeDecodeError => true | _ => false end.

Definition load_csv (w : world) (uploaded_file : list N)
  : M (option DataFrame) :=
  try_except
    (df <- call (EvReadCsv Utf8) (read_csv w uploaded_file Utf8) ;;
     ret (Some df))
    is_unicode_decode_error
    (fun _ =>
       try_catch
         (df <- call (EvReadCsv Latin1) (read_csv w uploaded_file Latin1) ;;
          ret (Some df))
         (fun e =>
            st_error (lit "Error loading CSV: " ++ exn_msg e) ;;
            ret None)).

Definition slash : N := 47.

Definition load_google_sheet (w : world) (credentials_json sheet_url : pystr)
  : M (option DataFrame) :=
  try_catch
    (info <- call (EvEval credentials_json) (python_eval w credentials_json) ;;
     credentials <- call (EvCredentials info)
                      (from_service_account_info w info) ;;
     sheet_id <- py_index (split_on slash sheet_url) 5 ;;
     service <- call (EvBuild credentials) (build w credentials) ;;
     data <- call (EvSheetsGet sheet_id) (sheets_get w service sheet_id) ;;
     match data with
     | [] =>
         st_error (lit "No data found in Google Sheet") ;;
         ret None
     | header :: rows =>
         df <- quiet (make_dataframe w rows header) ;;
         ret (Some df)
     end)
    (fun e =>
       st_error (lit "Error loading Google Sheet: " ++ exn_msg e) ;;
       ret None).

(** ** [LLMProcessor.extract_info] (lines 110-141) *)

Definition format_result (result : SearchResultRecord) : pystr :=
  lit "Title: " ++ title result ++ nl
  ++ lit "Snippet: " ++ snippet result ++ nl
  ++ lit "Link: " ++ link result ++ nl.

Definition build_prompt (custom_prompt : pystr)
    (search_results : list SearchResultRecord) : pystr :=
  let formatted_results := join nl (List.map format_result search_results) in
  custom_prompt ++ nl ++ nl ++ lit "Search Results:" ++ nl ++ formatted_results.

Definition no_information : pystr :=
  lit "No relevant information could be extracted.".

Definition extract_info (w : world) (idx : nat) (entity : cell)
    (search_results : list SearchResultRecord) (custom_prompt : pystr)
  : M pystr :=
  try_catch
    (let prompt := build_prompt custom_prompt search_results in
     choices <- call (EvChat prompt) (chat_create w idx prompt) ;;
     content <- py_index choices 0 ;;
     text <- match content with
             | Some text => ret text
             | None =>
                 raise (mkExn AttributeError
                          (lit "'NoneType' object has no attribute 'strip'"))
             end ;;
     let extracted_info := strip text in
     ret (if is_empty extracted_info then no_information else extracted_info))
    (fun e =>
       let error_message := lit "Error with Groq API: " ++ exn_msg e in
       st_error error_message ;;
       ret (lit "Error: " ++ error_message)).

(** ** [display_search_results] (lines 143-151) *)

Definition display_search_results (results : list SearchResultRecord)
  : M unit :=
  r <- py_index results 1 ;;
  emit (EvPreview r).

(** ** [main] (lines 173-361) *)

Inductive data_source_choice := UploadCSV | GoogleSheets.

(** What the widgets return in one run of the script. *)
Record widgets := mkWidgets
  { data_source : data_source_choice;
    uploaded_file : option (list N);
    credentials_json : pystr;
    sheet_url : pystr;
    connect_clicked : bool;
    selected_column : pystr;
    serp_api_key : pystr;
    search_prompt_template : pystr;
    groq_api_key : pystr;
    run_search_clicked : bool;
    custom_prompt : pystr;
    process_clicked : bool;
    update_sheet_clicked : bool }.

(** [df[selected_column]] *)
Fixpoint getitem (df : DataFrame) (label : pystr) : M (list cell) :=
  match df with
  | [] => raise (mkExn KeyError label)
  | (name, values) :: rest =>
      if decide (name = label) then ret values else getitem rest label
  end.

Definition set_current_search_results (results : list SearchBatchRecord)
  : M unit :=
  s <- get ;;
  put (mkSession (processed_results s) (Some results)) (EvStoreBatch results).

Definition set_processed_results (results : list ExtractionRecord) : M unit :=
  s <- get ;;
  put (mkSession (Some results) (current_search_results s))
      (EvStoreProcessed results).

(** The loop of lines 232-245; [idx] and [results] are the loop's counter
    and the list it appends to. *)
Fixpoint search_loop (w : world) (template api_key : pystr)
    (total_entities idx : nat) (column : list cell)
    (results : list SearchBatchRecord) : M (list SearchBatchRecord) :=
  match column with
  | [] => ret results
  | entity :: rest =>
      progress <- py_truediv (idx + 1) total_entities ;;
      emit (EvProgress progress) ;;
      let query := replace (lit "{entity}") (py_str entity) template in
      search_results <- search_web w idx query api_key ;;
      let results' :=
        if is_empty search_results then results
        else results ++ [mkBatch entity search_results] in
      time_sleep ;;
      search_loop w template api_key total_entities (idx + 1) rest results'
  end.

(** Lines 228-248: the search phase over one column. *)
Definition run_search (w : world) (template api_key : pystr)
    (column : list cell) : M (list SearchBatchRecord) :=
  emit EvProgressInit ;;
  let total_entities := length column in
  search_loop w template api_key total_entities 0 column [].

(** The loop of lines 284-299. *)
Fixpoint extraction_loop (w : world) (prompt : pystr)
    (total_entities idx : nat) (batch : list SearchBatchRecord)
    (results : list ExtractionRecord) : M (list ExtractionRecord) :=
  match batch with
  | [] => ret results
  | result :: rest =>
      progress <- py_truediv (idx + 1) total_entities ;;
      emit (EvProgress progress) ;;
      extracted_info <- extract_info w idx (entity result)
                          (search_results result) prompt ;;
      let results' := results ++ [mkExtraction (entity result) extracted_info] in
      time_sleep ;;
      extraction_loop w prompt total_entities (idx + 1) rest results'
  end.

(** Lines 278-299: the extraction phase over one batch. *)
Definition run_extraction (w : world) (prompt : pystr)
    (batch : list SearchBatchRecord) : M (list ExtractionRecord) :=
  emit EvProgressInit ;;
  let total_entities := length batch in
  extraction_loop w prompt total_entities 0 batch [].

(** Lines 348-361: the append of the result rows to the origin sheet. *)
Definition update_google_sheet (w : world) (credentials_json sheet_url : pystr)
    (records : list ExtractionRecord) : M unit :=
  try_catch
    (value <- call (EvEval credentials_json) (python_eval w credentials_json) ;;
     service <- call (EvBuild value) (build w value) ;;
     sheet_id <- py_index (split_on slash sheet_url) 5 ;;
     let rows := List.map (fun r => (result_entity r, extracted_info r)) records in
     call (EvSheetsAppend sheet_id rows) (sheets_append w service sheet_id rows) ;;
     st_success (lit "Google Sheet Updated Successfully!"))
    (fun e => st_error (lit "Error updating Google Sheet: " ++ exn_msg e)).

(** Lines 305-361: the results section. *)
Definition results_section (w : world) (ui : widgets) : M unit :=
  s <- get ;;
  match processed_results s with
  | Some ((_ :: _) as records) =>
      match data_source ui with
      | GoogleSheets =>
          if negb (is_empty (credentials_json ui)) && update_sheet_clicked ui
          then update_google_sheet w (credentials_json ui) (sheet_url ui) records
          else ret tt
      | UploadCSV => ret tt
      end
  | _ => ret tt
  end.

(** Lines 251-302: the preview of the first entity's results and, on the
    second button, the extraction phase.  A missing key returns from [main],
    so the results section is not reached. *)
Definition extraction_section (w : world) (ui : widgets) : M unit :=
  s <- get ;;
  match current_search_results s with
  | Some ((first_result :: _) as batch) =>
      display_search_results (search_results first_result) ;;
      if process_clicked ui then
        if is_empty (groq_api_key ui) then
          st_error (lit "Please provide Groq API key")
        else
          results <- run_extraction w (custom_prompt ui) batch ;;
          set_processed_results results ;;
          st_success (lit "LLM processing completed!") ;;
          results_section w ui
      else results_section w ui
  | _ => results_section w ui
  end.

(** Lines 222-248: the first button. *)
Definition search_section (w : world) (ui : widgets) (df : DataFrame)
  : M unit :=
  if run_search_clicked ui then
    if is_empty (serp_api_key ui) then
      st_error (lit "Please provide ScraperAPI key")
    else
      column <- getitem df (selected_column ui) ;;
      results <- run_search w (search_prompt_template ui) (serp_api_key ui)
                   column ;;
      set_current_search_results results ;;
      st_success (lit "Web search completed!") ;;
      extraction_section w ui
  else extraction_section w ui.

(** Lines 186-196: the data input section. *)
Definition load_data (w : world) (ui : widgets) : M (option DataFrame) :=
  match data_source ui with
  | UploadCSV =>
      match uploaded_file ui with
      | Some file => load_csv w file
      | None => ret None
      end
  | GoogleSheets =>
      if connect_clicked ui && negb (is_empty (credentials_json ui))
         && negb (is_empty (sheet_url ui))
      then load_google_sheet w (credentials_json ui) (sheet_url ui)
      else ret None
  end.

Definition main (w : world) (ui : widgets) : M unit :=
  df <- load_data w ui ;;
  match df with
  | Some df =>
      st_success (lit "Data loaded successfully!") ;;
      search_section w ui df
  | None => ret tt
  end.

(** The session a browser tab starts with. *)
Definition initial_session : session := mkSession None None.

(** A tab's history: the script runs once per interaction, each run with
    its own widget values and collaborator answers, on the session the
    previous run left (also when that run ended in an exception). *)
Fixpoint run_script (runs : list (world * widgets)) (s : session)
  : session * list event :=
  match runs with
  | [] => (s, [])
  | (w, ui) :: rest =>
      match main w ui s with
      | (_, s1, t1) =>
          match run_script rest s1 with
          | (s2, t2) => (s2, t1 ++ t2)
          end
      end
  end.

(** * Specification *)

(** ** The search client *)

(** Events that only show a message to the user. *)
Definition is_message (ev : event) : bool :=
  match ev with
  | EvWarning _ | EvError _ | EvSuccess _ => true
  | _ => false
  end.

(** The record a result [div] stands for, before any filtering. *)
Definition record_of (d : div_view) : option SearchResultRecord :=
  match div_fault d with
  | Some _ => None
  | None =>
      Some (mkResult
              (default (lit "No title") (title_elem d))
              (match link_elem d with
               | Some (Some href) => href
               | _ => lit "No link"
               end)
              (default (lit "No snippet") (snippet_elem d)))
  end.

Definition http_link (r : SearchResultRecord) : Prop :=
  startswith (lit "http") (link r) = true.

#[local] Instance http_link_dec r : Decision (http_link r).
Proof. unfold http_link. apply _. Defined.

(** The spec's words: discard the records whose link is not a web address,
    keep at most five, in the collaborator's order. *)
Definition keep_top5 (divs : list div_view) : list SearchResultRecord :=
  take 5 (filter http_link (omap record_of divs)).

(** What the body of the result loop contributes for one [div]. *)
Definition kept (d : div_view) : option SearchResultRecord :=
  match record_of d with
  | Some r => if startswith (lit "http") (link r) then Some r else None
  | None => None
  end.

(** What [search_web] returns, read off the collaborators' answers. *)
Definition search_web_result (w : world) (idx : nat) (query api_key : pystr)
  : list SearchResultRecord :=
  match requests_get w idx (search_url query api_key) with
  | Ret text =>
      if is_empty (strip text) then []
      else match find_result_divs w text with
           | Ret divs => keep_top5 divs
           | Raise _ => []
           end
  | Raise _ => []
  end.

(** ** Traces *)

(** The events of a trace other than messages to the user. *)
Definition effects (t : list event) : list event :=
  List.filter (fun ev => negb (is_message ev)) t.

Definition http_urls (t : list event) : list pystr :=
  omap (fun ev => match ev with EvHttpGet u => Some u | _ => None end) t.

Definition chat_prompts (t : list event) : list pystr :=
  omap (fun ev => match ev with EvChat p => Some p | _ => None end) t.

Definition progress_values (t : list event) : list Q :=
  omap (fun ev => match ev with EvProgress q => Some q | _ => None end) t.

(** ** The two phases, read off the collaborators' answers *)

Definition search_query (template : pystr) (entity : cell) : pystr :=
  replace (lit "{entity}") (py_str entity) template.

Definition fraction (k total : nat) : Q := Z.of_nat k # Pos.of_nat total.

(** The batch the search phase builds from the rows [column], the first of
    which has index [idx]. *)
Fixpoint search_batch (w : world) (template api_key : pystr) (idx : nat)
    (column : list cell) : list SearchBatchRecord :=
  match column with
  | [] => []
  | entity :: rest =>
      let found := search_web_result w idx (search_query template entity) api_key in
      (if is_empty found then [] else [mkBatch entity found])
      ++ search_batch w template api_key (idx + 1) rest
  end.

Fixpoint search_events (template api_key : pystr) (total idx : nat)
    (column : list cell) : list event :=
  match column with
  | [] => []
  | entity :: rest =>
      [EvProgress (fraction (idx + 1) total);
       EvHttpGet (search_url (search_query template entity) api_key);
       EvSleep]
      ++ search_events template api_key total (idx + 1) rest
  end.

Definition groq_error (e : exn) : pystr :=
  lit "Error: " ++ lit "Error with Groq API: " ++ exn_msg e.

(** The text [extract_info] returns for one batch entry. *)
Definition extract_info_result (w : world) (idx : nat)
    (found : list SearchResultRecord) (prompt : pystr) : pystr :=
  match chat_create w idx (build_prompt prompt found) with
  | Ret [] => groq_error (mkExn IndexError (lit "list index out of range"))
  | Ret (None :: _) =>
      groq_error (mkExn AttributeError
                    (lit "'NoneType' object has no attribute 'strip'"))
  | Ret (Some text :: _) =>
      if is_empty (strip text) then no_information else strip text
  | Raise e => groq_error e
  end.

Fixpoint extraction_records (w : world) (prompt : pystr) (idx : nat)
    (batch : list SearchBatchRecord) : list ExtractionRecord :=
  match batch with
  | [] => []
  | r :: rest =>
      mkExtraction (entity r)
        (extract_info_result w idx (search_results r) prompt)
      :: extraction_records w prompt (idx + 1) rest
  end.

Fixpoint extraction_events (prompt : pystr) (total idx : nat)
    (batch : list SearchBatchRecord) : list event :=
  match batch with
  | [] => []
  | r :: rest =>
      [EvProgress (fraction (idx + 1) total);
       EvChat (build_prompt prompt (search_results r));
       EvSleep]
      ++ extraction_events prompt total (idx + 1) rest
  end.

(** The reports of a phase over [n] rows: the fractions [k / n] for
    [k = 1 .. n], strictly increasing, the first above 0, the last 1. *)
Definition progress_report (n : nat) (ps : list Q) : Prop :=
  ps = List.map (fun k => fraction k n) (seq 1 n)
  /\ StronglySorted Qlt ps
  /\ (exists q, head ps = Some q /\ (0 < q)%Q)
  /\ (exists q, last ps = Some q /\ (q == 1)%Q).



(** ** A concrete run *)

Module Sample.

Definition acme_div : div_view :=
  mkDiv None (Some (lit "Acme Corp")) (Some (Some (lit "https://acme.example")))
    (Some (lit "Anvils since 1949")).

Definition acme_result : SearchResultRecord :=
  mkResult (lit "Acme Corp") (lit "https://acme.example")
    (lit "Anvils since 1949").

Definition acme_table : DataFrame := [(lit "company", [CellStr (lit "Acme")])].

(** The search page holds one result, the model answers with one sentence,
    the uploaded file parses to a one-row table; the spreadsheet calls
    fail. *)
Definition one_result_world : world :=
  let refused {A} : outcome A := Raise (mkExn OtherError (lit "refused")) in
  mkWorld
    (fun _ _ => Ret (lit "<html><div class='g'>..</div></html>"))
    (fun _ => Ret [acme_div])
    (fun _ _ => Ret [Some (lit " Acme makes anvils. ")])
    (fun _ _ => Ret acme_table)
    (fun _ => refused)
    (fun _ => refused)
    (fun _ => refused)
    (fun _ _ => refused)
    (fun _ _ _ => refused)
    (fun _ _ => refused).

(** The upload is an empty file, on which [pandas.read_csv] raises
    [EmptyDataError]. *)
Definition empty_file_world : world :=
  mkWorld
    (requests_get one_result_world)
    (find_result_divs one_result_world)
    (chat_create one_result_world)
    (fun file _ =>
       match file with
       | [] => Raise (mkExn EmptyDataError (lit "No columns to parse from file"))
       | _ => Ret acme_table
       end)
    (python_eval one_result_world)
    (from_service_account_info one_result_world)
    (build one_result_world)
    (sheets_get one_result_world)
    (sheets_append one_result_world)
    (make_dataframe one_result_world).

(** The search page holds a result without a web address between two that
    have one. *)
Definition related_div : div_view :=
  mkDiv None (Some (lit "Related searches")) (Some (Some (lit "/search?q=anvil")))
    None.

Definition wiki_div : div_view :=
  mkDiv None (Some (lit "Acme - Wikipedia"))
    (Some (Some (lit "http://wiki.example/Acme"))) None.

Definition wiki_result : SearchResultRecord :=
  mkResult (lit "Acme - Wikipedia") (lit "http://wiki.example/Acme")
    (lit "No snippet").

Definition two_result_world : world :=
  mkWorld
    (requests_get one_result_world)
    (fun _ => Ret [acme_div; related_div; wiki_div])
    (chat_create one_result_world)
    (read_csv one_result_world)
    (python_eval one_result_world)
    (from_service_account_info one_result_world)
    (build one_result_world)
    (sheets_get one_result_world)
    (sheets_append one_result_world)
    (make_dataframe one_result_world).

(** The uploaded table has its header and no row. *)
Definition no_row_world : world :=
  mkWorld
    (requests_get one_result_world)
    (find_result_divs one_result_world)
    (chat_create one_result_world)
    (fun _ _ => Ret [(lit "company", [])])
    (python_eval one_result_world)
    (from_service_account_info one_result_world)
    (build one_result_world)
    (sheets_get one_result_world)
    (sheets_append one_result_world)
    (make_dataframe one_result_world).

(** The user has uploaded [file] and presses "Run Web Search". *)
Definition search_click (file : list N) : widgets :=
  mkWidgets UploadCSV (Some file) [] [] false (lit "company")
    (lit "scraper-key") (lit "Get me information about {entity}")
    (lit "groq-key") true (lit "Summarize: ") false false.

(** The same upload, and the user presses "Process with LLM". *)
Definition process_click (file : list N) : widgets :=
  mkWidgets UploadCSV (Some file) [] [] false (lit "company")
    (lit "scraper-key") (lit "Get me information about {entity}")
    (lit "groq-key") false (lit "Summarize: ") true false.

Definition csv_bytes : list N := lit "company
Acme
".

Definition acme_batch : list SearchBatchRecord :=
  [mkBatch (CellStr (lit "Acme")) [acme_result]].

End Sample.

(** ** The session along a trace *)

(** Events other than a call to the language model and the two session
    assignments. *)
Definition is_plain (ev : event) : bool :=
  match ev with
  | EvChat _ | EvStoreBatch _ | EvStoreProcessed _ => false
  | _ => true
  end.

(** The batch the session holds after the events [t], when it held [cur]
    before them. *)
Fixpoint held_batch (cur : option (list SearchBatchRecord)) (t : list event)
  : option (list SearchBatchRecord) :=
  match t with
  | [] => cur
  | EvStoreBatch b :: t' => held_batch (Some b) t'
  | _ :: t' => held_batch cur t'
  end.

Fixpoint held_records (cur : option (list ExtractionRecord)) (t : list event)
  : option (list ExtractionRecord) :=
  match t with
  | [] => cur
  | EvStoreProcessed r :: t' => held_records (Some r) t'
  | _ :: t' => held_records cur t'
  end.

(** The prompt [p] was built for an entry of the held batch. *)
Definition chat_for (cur : option (list SearchBatchRecord)) (p : pystr) : Prop :=
  exists batch r prompt,
    cur = Some batch /\ r ∈ batch
    /\ p = build_prompt prompt (search_results r).

(** The records are the output of an extraction phase over the held batch,
    by some language model and prompt; the batch is not empty. *)
Definition records_for (cur : option (list SearchBatchRecord))
    (records : list ExtractionRecord) : Prop :=
  exists batch w prompt,
    cur = Some batch /\ is_empty batch = false
    /\ records = extraction_records w prompt 0 batch.

(** The batch is one a search phase can build: the output of the search
    loop for some collaborators, template, key and column. *)
Definition batch_of_search (batch : list SearchBatchRecord) : Prop :=
  exists w template api_key column,
    batch = search_batch w template api_key 0 column.

(** Along [t], every batch assigned is one a search phase can build, and
    every call to the language model and every assignment of extraction
    records is made for the batch most recently assigned. *)
Fixpoint follows_batch (cur : option (list SearchBatchRecord))
    (t : list event) : Prop :=
  match t with
  | [] => True
  | EvStoreBatch b :: t' => batch_of_search b /\ follows_batch (Some b) t'
  | EvChat p :: t' => chat_for cur p /\ follows_batch cur t'
  | EvStoreProcessed r :: t' => records_for cur r /\ follows_batch cur t'
  | _ :: t' => follows_batch cur t'
  end.

(** ** Properties of computations *)

(** Every event of [m] satisfies [p]. *)
Definition only (p : event -> bool) {A} (m : M A) : Prop :=
  forall s, forallb p (m s).2 = true.

(** [m] does not assign to the session. *)
Definition keeps_session {A} (m : M A) : Prop :=
  forall s, (m s).1.2 = s.

(** Run from [s], [m] keeps the session and the trace in step: what the
    session holds afterwards is what the trace says was assigned last, and
    the trace follows the batch. *)
Definition tracks_at {A} (m : M A) (s : session) : Prop :=
  follows_batch (current_search_results s) (m s).2
  /\ current_search_results (m s).1.2
     = held_batch (current_search_results s) (m s).2
  /\ processed_results (m s).1.2
     = held_records (processed_results s) (m s).2.

Definition tracks {A} (m : M A) : Prop := forall s, tracks_at m s.

(** ** Further notions for the rest of the code *)

(** The exceptions [m] can end in all satisfy [P]. *)
Definition raises_only (P : exn -> Prop) {A} (m : M A) : Prop :=
  forall s e, (m s).1.1 = Raise e -> P e.

(** The events of the search phase. *)
Definition is_search_phase_event (ev : event) : bool :=
  match ev with
  | EvHttpGet _ | EvProgressInit | EvProgress _ | EvSleep
  | EvWarning _ | EvError _ | EvSuccess _ => true
  | _ => false
  end.

(** The events of the extraction phase. *)
Definition is_extraction_phase_event (ev : event) : bool :=
  match ev with
  | EvChat _ | EvProgressInit | EvProgress _ | EvSleep
  | EvWarning _ | EvError _ | EvSuccess _ => true
  | _ => false
  end.

(** The calls that involve the credential text or the spreadsheet. *)
Definition is_sheet_event (ev : event) : bool :=
  match ev with
  | EvEval _ | EvCredentials _ | EvBuild _ | EvSheetsGet _
  | EvSheetsAppend _ _ => true
  | _ => false
  end.

(** The events of the data input section. *)
Definition is_load_event (ev : event) : bool :=
  match ev with
  | EvReadCsv _ | EvError _ => true
  | ev => is_sheet_event ev
  end.

(** The events of the results section. *)
Definition is_results_event (ev : event) : bool :=
  match ev with
  | EvError _ | EvSuccess _ => true
  | ev => is_sheet_event ev
  end.

Definition sleeps (t : list event) : nat :=
  length (List.filter (fun ev => match ev with EvSleep => true | _ => false end) t).

Definition sheet_events (t : list event) : list event :=
  List.filter is_sheet_event t.

Definition not_batch_store (ev : event) : bool :=
  match ev with EvStoreBatch _ => false | _ => true end.



Definition not_sheet_event (ev : event) : bool := negb (is_sheet_event ev).

Definition is_preview (ev : event) : bool :=
  match ev with EvPreview _ => true | _ => false end.

Definition not_call (ev : event) : bool :=
  match ev with EvHttpGet _ | EvChat _ => false | _ => true end.

Definition not_call_or_store (ev : event) : bool :=
  match ev with
  | EvHttpGet _ | EvChat _ | EvStoreBatch _ | EvStoreProcessed _ => false
  | _ => true
  end.

(** The exceptions a run of [main] can end in: what the first [read_csv]
    raised, when it is not a decoding error; the [KeyError] of the column
    lookup; the [IndexError] of the preview. *)
Definition main_escape (w : world) (ui : widgets) (e : exn) : Prop :=
  (exists file,
     uploaded_file ui = Some file /\ read_csv w file Utf8 = Raise e
     /\ is_unicode_decode_error e = false)
  \/ e = mkExn KeyError (selected_column ui)
  \/ e = mkExn IndexError (lit "list index out of range").

Definition brace : N := 123.

Module Scenario.

(** The upload is not valid UTF-8 and parses as Latin-1. *)
Definition latin1_world : world :=
  mkWorld
    (requests_get Sample.one_result_world)
    (find_result_divs Sample.one_result_world)
    (chat_create Sample.one_result_world)
    (fun _ enc =>
       match enc with
       | Utf8 => Raise (mkExn UnicodeDecodeError (lit "invalid start byte"))
       | Latin1 => Ret Sample.acme_table
       end)
    (python_eval Sample.one_result_world)
    (from_service_account_info Sample.one_result_world)
    (build Sample.one_result_world)
    (sheets_get Sample.one_result_world)
    (sheets_append Sample.one_result_world)
    (make_dataframe Sample.one_result_world).

(** Every request to the search proxy fails. *)
Definition offline_world : world :=
  mkWorld
    (fun _ _ => Raise (mkExn RequestException (lit "connection refused")))
    (find_result_divs Sample.one_result_world)
    (chat_create Sample.one_result_world)
    (read_csv Sample.one_result_world)
    (python_eval Sample.one_result_world)
    (from_service_account_info Sample.one_result_world)
    (build Sample.one_result_world)
    (sheets_get Sample.one_result_world)
    (sheets_append Sample.one_result_world)
    (make_dataframe Sample.one_result_world).

(** The search page is blank. *)
Definition blank_page_world : world :=
  mkWorld
    (fun _ _ => Ret (lit "   "))
    (find_result_divs Sample.one_result_world)
    (chat_create Sample.one_result_world)
    (read_csv Sample.one_result_world)
    (python_eval Sample.one_result_world)
    (from_service_account_info Sample.one_result_world)
    (build Sample.one_result_world)
    (sheets_get Sample.one_result_world)
    (sheets_append Sample.one_result_world)
    (make_dataframe Sample.one_result_world).

(** The spreadsheet collaborators all answer. *)
Definition sheet_world : world :=
  mkWorld
    (requests_get Sample.one_result_world)
    (find_result_divs Sample.one_result_world)
    (chat_create Sample.one_result_world)
    (read_csv Sample.one_result_world)
    (fun src => Ret (PyObj src))
    (fun info => Ret info)
    (fun cred => Ret cred)
    (fun _ _ => Ret [[lit "company"]; [lit "Acme"]])
    (fun _ _ _ => Ret tt)
    (fun _ _ => Ret Sample.acme_table).

Definition faulty_div : div_view :=
  mkDiv (Some (mkExn OtherError (lit "broken tag"))) None None None.

Definition sheet_url : pystr :=
  lit "https://docs.google.com/spreadsheets/d/ID42/edit#gid=0".

(** Google Sheets is chosen and a button other than "Connect" is pressed. *)
Definition sheets_search_click : widgets :=
  mkWidgets GoogleSheets None (lit "{'type': 'service_account'}") sheet_url
    false (lit "company") (lit "scraper-key")
    (lit "Get me information about {entity}") (lit "groq-key") true
    (lit "Summarize: ") false true.

(** "Run Web Search" without a ScraperAPI key. *)
Definition keyless_search_click : widgets :=
  mkWidgets UploadCSV (Some Sample.csv_bytes) [] [] false (lit "company")
    [] (lit "Get me information about {entity}") (lit "groq-key") true
    (lit "Summarize: ") true false.


(** A session whose batch was stored by a search with two results. *)
Definition searched_session : session :=
  mkSession None
    (Some [mkBatch (CellStr (lit "Acme"))
             [Sample.acme_result; Sample.wiki_result]]).

End Scenario.

(** ** Where a progress report sits among the collaborator calls *)

(** Each progress report of [t] with the number of rows processed when it
    is made, a row counting as processed once its call to the search proxy
    or to the language model has been made; [done] rows were processed
    before [t]. *)
Fixpoint reports_with_rows (done : nat) (t : list event) : list (Q * nat) :=
  match t with
  | [] => []
  | EvProgress q :: t' => (q, done) :: reports_with_rows done t'
  | EvHttpGet _ :: t' => reports_with_rows (S done) t'
  | EvChat _ :: t' => reports_with_rows (S done) t'
  | _ :: t' => reports_with_rows done t'
  end.

(** The spec's words: after each row, the fraction rows processed / total
    rows, so [k / n] is reported when [k] rows are processed. *)
Definition reported_after_each_row (n : nat) (t : list event) : Prop :=
  reports_with_rows 0 t = List.map (fun k => (fraction k n, k)) (seq 1 n).

(** What the loops do: [(i + 1) / n] is reported when [i] rows are
    processed, that is before row [i] itself. *)
Definition reported_before_each_row (n : nat) (t : list event) : Prop :=
  reports_with_rows 0 t = List.map (fun i => (fraction (i + 1) n, i)) (seq 0 n).

(** ** One run of [main] on the session, when no credential text is
    evaluated *)

(** The table the data input section loads. *)
Definition loaded_table (w : world) (ui : widgets) : option DataFrame :=
  match (load_data w ui initial_session).1.1 with
  | Ret (Some df) => Some df
  | _ => None
  end.

(** The values of the chosen column of the loaded table. *)
Definition chosen_column (w : world) (ui : widgets) : option (list cell) :=
  match loaded_table w ui with
  | Some df =>
      match (getitem df (selected_column ui) initial_session).1.1 with
      | Ret column => Some column
      | Raise _ => None
      end
  | None => None
  end.

(** The batch this run's search phase builds, when the phase runs: the
    button is pressed, a key is given, the table loaded and the column is
    there. *)
Definition searched_batch (w : world) (ui : widgets)
  : option (list SearchBatchRecord) :=
  if run_search_clicked ui && negb (is_empty (serp_api_key ui)) then
    match chosen_column w ui with
    | Some column =>
        Some (search_batch w (search_prompt_template ui) (serp_api_key ui) 0
                column)
    | None => None
    end
  else None.

(** Whether the run gets as far as line 251: the table loaded, and the first
    button either not pressed or its phase run. *)
Definition reaches_extraction (w : world) (ui : widgets) : bool :=
  match loaded_table w ui with
  | Some _ =>
      if run_search_clicked ui then
        match searched_batch w ui with Some _ => true | None => false end
      else true
  | None => false
  end.

(** The records the extraction section builds over the batch [held], when
    its phase runs: the preview of the first entity passes, the button is
    pressed and a key is given. *)
Definition phase_records (w : world) (ui : widgets)
    (held : option (list SearchBatchRecord))
  : option (list ExtractionRecord) :=
  if process_clicked ui && negb (is_empty (groq_api_key ui)) then
    match held with
    | Some ((first :: _) as batch) =>
        match search_results first with
        | _ :: _ :: _ =>
            Some (extraction_records w (custom_prompt ui) 0 batch)
        | _ => None
        end
    | _ => None
    end
  else None.

(** The records this run's extraction phase builds, when the run gets to
    the extraction section. *)
Definition extracted_records (w : world) (ui : widgets)
    (held : option (list SearchBatchRecord))
  : option (list ExtractionRecord) :=
  if reaches_extraction w ui then phase_records w ui held else None.

(** The batch the extraction section of this run finds in the session. *)
Definition batch_held (w : world) (ui : widgets) (s : session)
  : option (list SearchBatchRecord) :=
  match searched_batch w ui with
  | Some batch => Some batch
  | None => current_search_results s
  end.

(** The session this run leaves. *)
Definition session_after (w : world) (ui : widgets) (s : session) : session :=
  mkSession
    (match extracted_records w ui (batch_held w ui s) with
     | Some records => Some records
     | None => processed_results s
     end)
    (batch_held w ui s).

(** The assignments to the session, in the order they are made. *)
Definition session_stores (t : list event) : list event :=
  List.filter
    (fun ev =>
       match ev with
       | EvStoreBatch _ | EvStoreProcessed _ => true
       | _ => false
       end) t.

Definition stores_of_run (w : world) (ui : widgets) (s : session)
  : list event :=
  match searched_batch w ui with
  | Some batch => [EvStoreBatch batch]
  | None => []
  end
  ++ match extracted_records w ui (batch_held w ui s) with
     | Some records => [EvStoreProcessed records]
     | None => []
     end.

Definition prompts_of_run (w : world) (ui : widgets) (s : session)
  : list pystr :=
  match extracted_records w ui (batch_held w ui s), batch_held w ui s with
  | Some _, Some batch =>
      List.map (fun r => build_prompt (custom_prompt ui) (search_results r))
        batch
  | _, _ => []
  end.

(** What a run shows of the session: the session it leaves, its assignments
    and its calls to the language model. *)
Definition observed {A} (m : M A) (s : session)
  : session * list event * list pystr :=
  ((m s).1.2, session_stores (m s).2, chat_prompts (m s).2).

(** The batch of the most recent search phase of a history. *)
Fixpoint latest_search (runs : list (world * widgets))
    (before : option (list SearchBatchRecord))
  : option (list SearchBatchRecord) :=
  match runs with
  | [] => before
  | (w, ui) :: rest =>
      latest_search rest
        (match searched_batch w ui with
         | Some batch => Some batch
         | None => before
         end)
  end.

Definition csv_run (run : world * widgets) : Prop :=
  data_source run.2 = UploadCSV.

(** ** A credential text that assigns the session *)

Module Planted.

(** A text for the credential field: evaluated, it assigns a batch to the
    session and has the value of an empty dict. *)
Definition text : pystr :=
  lit "st.session_state.update(current_search_results=[{'entity': 'Planted', 'search_results': [{'title': 't', 'link': 'http://x', 'snippet': 's'}] * 2}]) or {}".

Definition result : SearchResultRecord :=
  mkResult (lit "t") (lit "http://x") (lit "s").

Definition batch : list SearchBatchRecord :=
  [mkBatch (CellStr (lit "Planted")) [result; result]].




End Planted.

(** * Verification *)

(** ** Python text *)








(** ** Reasoning about the monad *)

Section MonadLemmas.
Context {A B : Type}.

Lemma bind_Ret (m : M A) (k : A -> M B) s a s1 t1 r s2 t2 :
  m s = (Ret a, s1, t1) -> k a s1 = (r, s2, t2) ->
  bind m k s = (r, s2, t1 ++ t2).
Proof. intros Hm Hk. unfold bind. now rewrite Hm, Hk. Qed.

Lemma bind_Raise (m : M A) (k : A -> M B) s e s1 t1 :
  m s = (Raise e, s1, t1) -> bind m k s = (Raise e, s1, t1).
Proof. intros Hm. unfold bind. now rewrite Hm. Qed.

Lemma try_catch_Ret (m : M A) h s a s1 t1 :
  m s = (Ret a, s1, t1) -> try_catch m h s = (Ret a, s1, t1).
Proof. intros Hm. unfold try_catch, try_except. now rewrite Hm. Qed.

Lemma try_catch_Raise (m : M A) h s e s1 t1 r s2 t2 :
  m s = (Raise e, s1, t1) -> h e s1 = (r, s2, t2) ->
  try_catch m h s = (r, s2, t1 ++ t2).
Proof. intros Hm Hh. unfold try_catch, try_except. now rewrite Hm, Hh. Qed.

End MonadLemmas.

(** ** The search client *)

#[local] Opaque lit startswith strip replace.

Lemma parse_result_caught d s :
  exists t,
    try_catch (parse_result d)
      (fun e => st_warning (lit "Error parsing individual result: " ++ exn_msg e) ;;
                ret None) s
    = (Ret (kept d), s, t)
    /\ forallb is_message t = true.
Proof.
  unfold try_catch, try_except, parse_result, kept, record_of.
  destruct d as [[e|] ti li sn]; simpl.
  - eexists; split; reflexivity.
  - destruct ti, li as [[?|]|], sn; simpl;
      match goal with |- context [startswith ?p ?l] =>
        destruct (startswith p l) end; simpl;
      exists []; split; reflexivity.
Qed.

Lemma omap_cons {X Y} (f : X -> option Y) (x : X) (l : list X) :
  omap f (x :: l)
  = match f x with Some y => y :: omap f l | None => omap f l end.
Proof. reflexivity. Qed.

Lemma parse_results_spec divs : forall acc s,
  exists t,
    parse_results divs acc s = (Ret (acc ++ omap kept divs), s, t)
    /\ forallb is_message t = true.
Proof.
  induction divs as [|d divs IH]; intros acc s.
  - exists []. simpl. rewrite app_nil_r. split; reflexivity.
  - destruct (parse_result_caught d s) as (t1 & H1 & M1).
    destruct (IH (match kept d with Some r => acc ++ [r] | None => acc end) s)
      as (t2 & H2 & M2).
    exists (t1 ++ t2). split.
    + cbn [parse_results]. eapply bind_Ret; [exact H1|].
      cbn beta. rewrite H2. do 2 f_equal.
      rewrite omap_cons. destruct (kept d); [|reflexivity].
      now rewrite <- app_assoc.
    + rewrite forallb_app, M1, M2. reflexivity.
Qed.

Lemma omap_kept_filter (divs : list div_view) :
  omap kept divs = filter http_link (omap record_of divs).
Proof.
  induction divs as [|d divs IH]; [reflexivity|].
  rewrite !omap_cons. unfold kept at 1.
  destruct (record_of d) as [r|]; [|exact IH].
  destruct (startswith (lit "http") (link r)) eqn:E.
  - rewrite filter_cons_True by exact E. now rewrite IH.
  - rewrite filter_cons_False; [exact IH|].
    unfold http_link. rewrite E. discriminate.
Qed.

Lemma search_web_spec w idx query api_key s :
  exists t,
    search_web w idx query api_key s
    = (Ret (search_web_result w idx query api_key), s,
       EvHttpGet (search_url query api_key) :: t)
    /\ forallb is_message t = true.
Proof.
  unfold search_web, search_web_result, try_catch, try_except, bind, call.
  destruct (requests_get w idx (search_url query api_key)) as [text|e].
  - destruct (is_empty (strip text)); cbn.
    + eexists; split; reflexivity.
    + unfold quiet. destruct (find_result_divs w text) as [divs|e].
      * destruct (parse_results_spec divs [] s) as (t & H & Mt).
        rewrite H. cbn [app]. unfold keep_top5.
        rewrite <- omap_kept_filter.
        destruct (is_empty (omap kept divs)); cbn;
          eexists; (split; [reflexivity|]);
          rewrite ?forallb_app, Mt; reflexivity.
      * destruct (is_request_exception e); cbn; eexists; split; reflexivity.
  - destruct (is_request_exception e); cbn; eexists; split; reflexivity.
Qed.

(** C5. Of the records a search response holds, [search_web] discards every
    one whose link does not start with [http], and returns at most five of
    the others, in the order the search collaborator gave them; it returns
    normally whatever the collaborators answer. *)
Theorem search_web_keeps_http_top5 w idx query api_key s :
  exists rs t,
    search_web w idx query api_key s = (Ret rs, s, t)
    /\ rs = search_web_result w idx query api_key
    /\ Forall http_link rs
    /\ (length rs <= 5)%nat
    /\ match requests_get w idx (search_url query api_key) with
       | Ret text =>
           match find_result_divs w text with
           | Ret divs => rs `prefix_of` filter http_link (omap record_of divs)
           | Raise _ => rs = []
           end
       | Raise _ => rs = []
       end.
Proof.
  destruct (search_web_spec w idx query api_key s) as (t & H & _).
  eexists _, _. split; [exact H|]. split; [reflexivity|].
  unfold search_web_result, keep_top5.
  destruct (requests_get w idx (search_url query api_key)) as [text|e];
    [|repeat split; [constructor|simpl; lia]].
  destruct (is_empty (strip text)).
  - repeat split; [constructor|simpl; lia|].
    destruct (find_result_divs w text); [apply prefix_nil|reflexivity].
  - destruct (find_result_divs w text) as [divs|e];
      [|repeat split; [constructor|simpl; lia]].
    repeat split.
    + apply Forall_take, Forall_forall. intros r Hr.
      now apply list_elem_of_filter in Hr.
    + rewrite length_take. lia.
    + apply prefix_take.
Qed.

Lemma effects_app t1 t2 : effects (t1 ++ t2) = effects t1 ++ effects t2.
Proof. apply List.filter_app. Qed.

Lemma effects_messages t : forallb is_message t = true -> effects t = [].
Proof.
  induction t as [|ev t IH]; [reflexivity|].
  simpl. intros [Hev Ht]%andb_prop. rewrite Hev. simpl. now apply IH.
Qed.

Lemma effects_cons ev t :
  is_message ev = false -> effects (ev :: t) = ev :: effects t.
Proof. intros H. unfold effects. simpl. now rewrite H. Qed.

Lemma py_truediv_pos k total :
  total <> 0%nat -> py_truediv k total = ret (fraction k total).
Proof. destruct total; [congruence|reflexivity]. Qed.

Lemma search_loop_spec w template api_key total column :
  forall idx results s,
    (length column <= total)%nat ->
    exists t,
      search_loop w template api_key total idx column results s
      = (Ret (results ++ search_batch w template api_key idx column), s, t)
      /\ effects t = search_events template api_key total idx column.
Proof.
  induction column as [|entity rest IH]; intros idx results s Hlen.
  - exists []. simpl. rewrite app_nil_r. split; reflexivity.
  - cbn [search_loop search_batch search_events].
    rewrite py_truediv_pos by (simpl in Hlen; lia).
    fold (search_query template entity).
    destruct (search_web_spec w idx (search_query template entity) api_key s)
      as (t1 & H1 & M1).
    set (found := search_web_result w idx (search_query template entity) api_key) in *.
    destruct (IH (idx + 1)%nat
                (if is_empty found then results
                 else results ++ [mkBatch entity found]) s)
      as (t2 & H2 & E2); [simpl in Hlen; lia|].
    eexists. split.
    + eapply bind_Ret; [reflexivity|]. cbn beta.
      eapply bind_Ret; [reflexivity|]. cbn beta.
      eapply bind_Ret; [exact H1|]. cbn beta.
      eapply bind_Ret; [reflexivity|]. cbn beta.
      rewrite H2. do 2 f_equal.
      destruct (is_empty found); [reflexivity|now rewrite <- app_assoc].
    + rewrite !effects_app, E2.
      rewrite (effects_cons (EvHttpGet _) t1) by reflexivity.
      rewrite (effects_messages _ M1). reflexivity.
Qed.

Lemma extract_info_spec w idx ent found prompt s :
  exists t,
    extract_info w idx ent found prompt s
    = (Ret (extract_info_result w idx found prompt), s,
       EvChat (build_prompt prompt found) :: t)
    /\ forallb is_message t = true.
Proof.
  unfold extract_info, extract_info_result, try_catch, try_except, bind, call.
  destruct (chat_create w idx (build_prompt prompt found)) as [[|[text|] ?]|e];
    cbn; eexists; split; reflexivity.
Qed.

Lemma extraction_loop_spec w prompt total batch :
  forall idx results s,
    (length batch <= total)%nat ->
    exists t,
      extraction_loop w prompt total idx batch results s
      = (Ret (results ++ extraction_records w prompt idx batch), s, t)
      /\ effects t = extraction_events prompt total idx batch.
Proof.
  induction batch as [|r rest IH]; intros idx results s Hlen.
  - exists []. simpl. rewrite app_nil_r. split; reflexivity.
  - cbn [extraction_loop extraction_records extraction_events].
    rewrite py_truediv_pos by (simpl in Hlen; lia).
    destruct (extract_info_spec w idx (entity r) (search_results r) prompt s)
      as (t1 & H1 & M1).
    set (info := extract_info_result w idx (search_results r) prompt) in *.
    destruct (IH (idx + 1)%nat (results ++ [mkExtraction (entity r) info]) s)
      as (t2 & H2 & E2); [simpl in Hlen; lia|].
    eexists. split.
    + eapply bind_Ret; [reflexivity|]. cbn beta.
      eapply bind_Ret; [reflexivity|]. cbn beta.
      eapply bind_Ret; [exact H1|]. cbn beta.
      eapply bind_Ret; [reflexivity|]. cbn beta.
      rewrite H2. do 2 f_equal. now rewrite <- app_assoc.
    + rewrite !effects_app, E2.
      rewrite (effects_cons (EvChat _) t1) by reflexivity.
      rewrite (effects_messages _ M1). reflexivity.
Qed.

Lemma run_search_spec w template api_key column s :
  exists t,
    run_search w template api_key column s
    = (Ret (search_batch w template api_key 0 column), s, t)
    /\ effects t
       = EvProgressInit
         :: search_events template api_key (length column) 0 column.
Proof.
  destruct (search_loop_spec w template api_key (length column) column 0%nat [] s)
    as (t & H & E); [lia|].
  exists ([EvProgressInit] ++ t). split.
  - unfold run_search. eapply bind_Ret; [reflexivity|]. exact H.
  - cbn [app]. rewrite effects_cons by reflexivity. now rewrite E.
Qed.

Lemma run_extraction_spec w prompt batch s :
  exists t,
    run_extraction w prompt batch s
    = (Ret (extraction_records w prompt 0 batch), s, t)
    /\ effects t
       = EvProgressInit :: extraction_events prompt (length batch) 0 batch.
Proof.
  destruct (extraction_loop_spec w prompt (length batch) batch 0%nat [] s)
    as (t & H & E); [lia|].
  exists ([EvProgressInit] ++ t). split.
  - unfold run_extraction. eapply bind_Ret; [reflexivity|]. exact H.
  - cbn [app]. rewrite effects_cons by reflexivity. now rewrite E.
Qed.

(** ** The extraction phase keeps every entry (C1) *)

Lemma extraction_records_entities w prompt batch : forall idx,
  List.map result_entity (extraction_records w prompt idx batch)
  = List.map entity batch.
Proof.
  induction batch as [|r rest IH]; intros idx; [reflexivity|].
  simpl. now rewrite IH.
Qed.

(** C1. Whatever the language model answers, also when its calls fail, the
    extraction phase returns one record per entry of the batch it is given:
    the output has the length of the batch and its entities are the batch's
    entities in the same order. *)
Theorem run_extraction_one_to_one w prompt batch s :
  exists records t,
    run_extraction w prompt batch s = (Ret records, s, t)
    /\ length records = length batch
    /\ List.map result_entity records = List.map entity batch.
Proof.
  destruct (run_extraction_spec w prompt batch s) as (t & H & _).
  eexists _, t. split; [exact H|].
  pose proof (extraction_records_entities w prompt batch 0) as E.
  split; [|exact E].
  apply (f_equal (@length _)) in E. now rewrite !length_map in E.
Qed.

(** ** The search phase keeps a subsequence of the column (C2) *)

Lemma search_batch_sublist w template api_key column : forall idx,
  List.map entity (search_batch w template api_key idx column)
  `sublist_of` column.
Proof.
  induction column as [|e rest IH]; intros idx; [constructor|].
  cbn [search_batch].
  destruct (is_empty _); cbn [app List.map entity].
  - apply sublist_cons, IH.
  - apply sublist_skip, IH.
Qed.

Lemma search_batch_nonempty w template api_key column : forall idx,
  Forall (fun r => is_empty (search_results r) = false)
    (search_batch w template api_key idx column).
Proof.
  induction column as [|e rest IH]; intros idx; [constructor|].
  cbn [search_batch].
  destruct (is_empty _) eqn:E; cbn [app].
  - apply IH.
  - constructor; [exact E|apply IH].
Qed.

(** C2. Whatever the search collaborator answers, the entities of the batch
    the search phase builds are a subsequence, in order, of the values of
    the chosen column, and every record of the batch has at least one
    search result. *)
Theorem run_search_subsequence w template api_key column s :
  exists batch t,
    run_search w template api_key column s = (Ret batch, s, t)
    /\ List.map entity batch `sublist_of` column
    /\ Forall (fun r => is_empty (search_results r) = false) batch.
Proof.
  destruct (run_search_spec w template api_key column s) as (t & H & _).
  eexists _, t. split; [exact H|]. split.
  - apply search_batch_sublist.
  - apply search_batch_nonempty.
Qed.

(** ** No rows, no calls (C8) *)

(** C8. On a column of zero rows the search phase returns the empty batch,
    on an empty batch the extraction phase returns no record, and neither
    makes a request to the search collaborator or to the language model. *)
Theorem zero_rows_no_calls w template api_key prompt s :
  (exists t,
     run_search w template api_key [] s = (Ret [], s, t)
     /\ http_urls t = [] /\ chat_prompts t = [])
  /\ (exists t,
        run_extraction w prompt [] s = (Ret [], s, t)
        /\ http_urls t = [] /\ chat_prompts t = []).
Proof. split; exists [EvProgressInit]; repeat split. Qed.

(** ** Progress reports (C7) *)

Lemma progress_values_app t1 t2 :
  progress_values (t1 ++ t2) = progress_values t1 ++ progress_values t2.
Proof.
  unfold progress_values. induction t1 as [|ev t1 IH]; [reflexivity|].
  cbn [app]. rewrite !omap_cons, IH. now destruct ev.
Qed.

Lemma progress_values_effects t :
  progress_values (effects t) = progress_values t.
Proof.
  unfold progress_values, effects.
  induction t as [|ev t IH]; [reflexivity|].
  cbn [List.filter]. destruct ev; cbn [is_message negb];
    rewrite !omap_cons; now rewrite IH.
Qed.

Lemma progress_search_events template api_key total column : forall idx,
  progress_values (search_events template api_key total idx column)
  = List.map (fun k => fraction k total) (seq (idx + 1) (length column)).
Proof.
  induction column as [|e rest IH]; intros idx; [reflexivity|].
  cbn [search_events length seq List.map].
  rewrite progress_values_app, IH.
  now replace (idx + 1 + 1)%nat with (S (idx + 1)) by lia.
Qed.

Lemma progress_extraction_events prompt total batch : forall idx,
  progress_values (extraction_events prompt total idx batch)
  = List.map (fun k => fraction k total) (seq (idx + 1) (length batch)).
Proof.
  induction batch as [|e rest IH]; intros idx; [reflexivity|].
  cbn [extraction_events length seq List.map].
  rewrite progress_values_app, IH.
  now replace (idx + 1 + 1)%nat with (S (idx + 1)) by lia.
Qed.

Lemma fraction_lt n j k :
  (j < k)%nat -> (fraction j n < fraction k n)%Q.
Proof.
  intros H. unfold fraction, Qlt. simpl.
  apply Z.mul_lt_mono_pos_r; lia.
Qed.

Lemma fractions_sorted n len : forall start,
  StronglySorted Qlt (List.map (fun k => fraction k n) (seq start len)).
Proof.
  induction len as [|len IH]; intros start; [constructor|].
  cbn [seq List.map]. constructor; [apply IH|].
  apply Forall_forall. intros q Hq.
  apply list_elem_of_In, in_map_iff in Hq. destruct Hq as (k & <- & Hk).
  apply in_seq in Hk. apply fraction_lt. lia.
Qed.

Lemma fraction_full n : n <> 0%nat -> (fraction n n == 1)%Q.
Proof.
  intros H. unfold fraction, Qeq. simpl.
  rewrite Z.mul_1_r, Z.mul_1_l.
  destruct n; [congruence|]. now rewrite <- Pos.of_nat_succ, Zpos_P_of_succ_nat, Nat2Z.inj_succ.
Qed.

Lemma progress_report_fractions n :
  n <> 0%nat ->
  progress_report n (List.map (fun k => fraction k n) (seq 1 n)).
Proof.
  intros Hn. split; [reflexivity|]. split; [apply fractions_sorted|]. split.
  - destruct n as [|n]; [congruence|]. eexists. split; [reflexivity|].
    unfold fraction, Qlt. simpl. lia.
  - exists (fraction n n). split; [|now apply fraction_full].
    destruct n as [|n]; [congruence|].
    rewrite seq_S, List.map_app. cbn [List.map].
    rewrite last_snoc. do 2 f_equal; lia.
Qed.

(** The values reported by the two phases, apart from where the reports
    sit in the trace. *)
Lemma progress_values_of_phases w template api_key prompt column batch s :
  column <> [] -> batch <> [] ->
  progress_report (length column)
    (progress_values (run_search w template api_key column s).2)
  /\ progress_report (length batch)
       (progress_values (run_extraction w prompt batch s).2).
Proof.
  intros Hc Hb. split.
  - destruct (run_search_spec w template api_key column s) as (t & H & E).
    rewrite H. cbn [snd]. rewrite <- progress_values_effects, E.
    change (EvProgressInit :: ?l) with ([EvProgressInit] ++ l).
    rewrite progress_values_app, progress_search_events.
    apply progress_report_fractions. now destruct column.
  - destruct (run_extraction_spec w prompt batch s) as (t & H & E).
    rewrite H. cbn [snd]. rewrite <- progress_values_effects, E.
    change (EvProgressInit :: ?l) with ([EvProgressInit] ++ l).
    rewrite progress_values_app, progress_extraction_events.
    apply progress_report_fractions. now destruct batch.
Qed.

Lemma reports_with_rows_effects t : forall done,
  reports_with_rows done (effects t) = reports_with_rows done t.
Proof.
  induction t as [|ev t IH]; intros done; [reflexivity|].
  destruct ev; cbn [effects List.filter is_message negb reports_with_rows];
    try apply IH; now rewrite <- IH.
Qed.

Lemma reports_search_events template api_key total column : forall idx,
  reports_with_rows idx (search_events template api_key total idx column)
  = List.map (fun i => (fraction (i + 1) total, i)) (seq idx (length column)).
Proof.
  induction column as [|e rest IH]; intros idx; [reflexivity|].
  cbn [search_events app reports_with_rows length seq List.map].
  replace (S idx) with (idx + 1)%nat by lia. now rewrite IH.
Qed.

Lemma reports_extraction_events prompt total batch : forall idx,
  reports_with_rows idx (extraction_events prompt total idx batch)
  = List.map (fun i => (fraction (i + 1) total, i)) (seq idx (length batch)).
Proof.
  induction batch as [|e rest IH]; intros idx; [reflexivity|].
  cbn [extraction_events app reports_with_rows length seq List.map].
  replace (S idx) with (idx + 1)%nat by lia. now rewrite IH.
Qed.

(** C7, as stated, fails on the code: on a column of one row the search
    phase reports 1/1 before the row's request is made, when no row is
    processed yet, not after it. *)
Lemma progress_not_reported_after_row :
  ~ reported_after_each_row 1
      (run_search Sample.two_result_world (lit "about {entity}") (lit "k")
         [CellStr (lit "Acme")] initial_session).2.
Proof. unfold reported_after_each_row. vm_compute. discriminate. Qed.

(** C7, amended. On a column (a batch) of [n > 0] rows, each phase reports
    progress once per row, at the start of the row's turn and before the
    row's call to the collaborator: the fraction [(i + 1) / n] is reported
    when [i] rows are processed.  The reported fractions are strictly
    increasing, the first is above 0 and the last is 1, reported before the
    last row is processed. *)
Theorem progress_reported_before_each_row w template api_key prompt column
    batch s :
  column <> [] -> batch <> [] ->
  (reported_before_each_row (length column)
     (run_search w template api_key column s).2
   /\ progress_report (length column)
        (progress_values (run_search w template api_key column s).2))
  /\ (reported_before_each_row (length batch)
        (run_extraction w prompt batch s).2
      /\ progress_report (length batch)
           (progress_values (run_extraction w prompt batch s).2)).
Proof.
  intros Hc Hb.
  destruct (progress_values_of_phases w template api_key prompt column batch s
              Hc Hb) as [Ps Pe].
  split; (split; [|assumption]); unfold reported_before_each_row.
  - destruct (run_search_spec w template api_key column s) as (t & H & E).
    rewrite H. cbn [snd]. rewrite <- reports_with_rows_effects, E.
    cbn [reports_with_rows]. apply reports_search_events.
  - destruct (run_extraction_spec w prompt batch s) as (t & H & E).
    rewrite H. cbn [snd]. rewrite <- reports_with_rows_effects, E.
    cbn [reports_with_rows]. apply reports_extraction_events.
Qed.

Lemma progress_reported_before_each_row_witness :
  [CellStr (lit "Acme"); CellInt 7] <> []
  /\ Sample.acme_batch <> []
  /\ (reported_before_each_row 2
        (run_search Sample.two_result_world (lit "about {entity}") (lit "k")
           [CellStr (lit "Acme"); CellInt 7] initial_session).2
      /\ progress_report 2
           (progress_values
              (run_search Sample.two_result_world (lit "about {entity}")
                 (lit "k") [CellStr (lit "Acme"); CellInt 7]
                 initial_session).2))
  /\ (reported_before_each_row 1
        (run_extraction Sample.two_result_world (lit "Summarize: ")
           Sample.acme_batch initial_session).2
      /\ progress_report 1
           (progress_values
              (run_extraction Sample.two_result_world (lit "Summarize: ")
                 Sample.acme_batch initial_session).2)).
Proof.
  split; [discriminate|]. split; [discriminate|].
  apply (progress_reported_before_each_row Sample.two_result_world
           (lit "about {entity}") (lit "k") (lit "Summarize: ")
           [CellStr (lit "Acme"); CellInt 7] Sample.acme_batch initial_session);
    discriminate.
Defined.

(** ** The text of an extraction record (C6) *)

Lemma chat_prompts_app t1 t2 :
  chat_prompts (t1 ++ t2) = chat_prompts t1 ++ chat_prompts t2.
Proof.
  unfold chat_prompts. induction t1 as [|ev t1 IH]; [reflexivity|].
  cbn [app]. rewrite !omap_cons, IH. now destruct ev.
Qed.

Lemma chat_prompts_effects t : chat_prompts (effects t) = chat_prompts t.
Proof.
  unfold chat_prompts, effects.
  induction t as [|ev t IH]; [reflexivity|].
  cbn [List.filter]. destruct ev; cbn [is_message negb];
    rewrite !omap_cons; now rewrite IH.
Qed.

Lemma chat_extraction_events prompt total batch : forall idx,
  chat_prompts (extraction_events prompt total idx batch)
  = List.map (fun r => build_prompt prompt (search_results r)) batch.
Proof.
  induction batch as [|r rest IH]; intros idx; [reflexivity|].
  cbn [extraction_events List.map].
  rewrite chat_prompts_app, IH. reflexivity.
Qed.

Lemma chat_search_events template api_key total column : forall idx,
  chat_prompts (search_events template api_key total idx column) = [].
Proof.
  induction column as [|r rest IH]; intros idx; [reflexivity|].
  cbn [search_events]. rewrite chat_prompts_app, IH. reflexivity.
Qed.


(** ** Exceptions that escape (C3) *)

Lemma load_csv_other_error w file e s :
  read_csv w file Utf8 = Raise e ->
  is_unicode_decode_error e = false ->
  load_csv w file s = (Raise e, s, [EvReadCsv Utf8]).
Proof.
  intros H He. unfold load_csv, try_except, bind, call. now rewrite H, He.
Qed.

(** When the first read succeeds, [load_csv] hands on what pandas parsed. *)
Lemma load_csv_first_read w file df s :
  read_csv w file Utf8 = Ret df ->
  load_csv w file s = (Ret (Some df), s, [EvReadCsv Utf8]).
Proof.
  intros H. unfold load_csv, try_except, bind, call. now rewrite H.
Qed.

(** A [UnicodeDecodeError] sends it to the Latin-1 read, whose errors all end
    in [None]. *)
Lemma load_csv_fallback w file e s :
  read_csv w file Utf8 = Raise e ->
  is_unicode_decode_error e = true ->
  exists t,
    load_csv w file s
    = (Ret (match read_csv w file Latin1 with
            | Ret df => Some df
            | Raise _ => None
            end), s, t).
Proof.
  intros H He. unfold load_csv, try_catch, try_except, bind, call.
  rewrite H, He. destruct (read_csv w file Latin1); eexists; reflexivity.
Qed.

Lemma display_one_result r s :
  display_search_results [r] s
  = (Raise (mkExn IndexError (lit "list index out of range")), s, []).
Proof. reflexivity. Qed.

(** C3 (the code at its failing inputs). The preview of a result list that
    holds a single record raises [IndexError], and [main] lets it through:
    after a search whose first entity has exactly one result the run of the
    script ends in that exception, the batch already stored.  An upload on
    which [read_csv] raises anything but [UnicodeDecodeError] (here an empty
    file) ends [load_csv], and with it [main], in that exception. *)
Theorem preview_and_csv_exceptions_escape :
  (forall r s,
     display_search_results [r] s
     = (Raise (mkExn IndexError (lit "list index out of range")), s, []))
  /\ (main Sample.one_result_world (Sample.search_click Sample.csv_bytes)
        initial_session).1
     = (Raise (mkExn IndexError (lit "list index out of range")),
        mkSession None (Some Sample.acme_batch))
  /\ (load_csv Sample.empty_file_world [] initial_session).1.1
     = Raise (mkExn EmptyDataError (lit "No columns to parse from file"))
  /\ (main Sample.empty_file_world (Sample.search_click []) initial_session).1.1
     = Raise (mkExn EmptyDataError (lit "No columns to parse from file")).
Proof.
  split; [exact display_one_result|].
  split; [vm_compute; reflexivity|].
  split; vm_compute; reflexivity.
Qed.

(** ** The credential document is evaluated (C10) *)

(** C10. Both the spreadsheet loader and the append of the results to the
    sheet begin by handing the credential text, as the user typed it, to
    [eval]; nothing is checked before.  What [eval] returns goes to the
    credential check of the loader, and unchecked to [build] in the append;
    when [eval] raises, only an error message follows. *)
Theorem credential_text_is_evaluated w credentials sheet records s :
  (exists t,
     (load_google_sheet w credentials sheet s).2 = EvEval credentials :: t
     /\ match python_eval w credentials with
        | Ret value => exists t', t = EvCredentials value :: t'
        | Raise _ => forallb is_message t = true
        end)
  /\ (exists t,
        (update_google_sheet w credentials sheet records s).2
        = EvEval credentials :: t
        /\ match python_eval w credentials with
           | Ret value => exists t', t = EvBuild value :: t'
           | Raise _ => forallb is_message t = true
           end).
Proof.
  split.
  - unfold load_google_sheet, try_catch, try_except, bind, call.
    destruct (python_eval w credentials) as [value|e]; cbn.
    + destruct (from_service_account_info w value) as [c|e]; cbn;
        [|eexists; split; [reflexivity|eexists; reflexivity]].
      destruct (py_index (split_on slash sheet) 5 s) as [[[id|e] s1] t1]; cbn;
        [|eexists; split; [reflexivity|eexists; reflexivity]].
      destruct (build w c) as [sv|e]; cbn;
        [|eexists; split; [reflexivity|eexists; reflexivity]].
      destruct (sheets_get w sv id) as [[|h rows]|e]; cbn;
        try (eexists; split; [reflexivity|eexists; reflexivity]).
      unfold quiet. destruct (make_dataframe w rows h); cbn;
        eexists; split; try reflexivity; eexists; reflexivity.
    + eexists; split; reflexivity.
  - unfold update_google_sheet, try_catch, try_except, bind, call.
    destruct (python_eval w credentials) as [value|e]; cbn.
    + destruct (build w value) as [sv|e]; cbn;
        [|eexists; split; [reflexivity|eexists; reflexivity]].
      destruct (py_index (split_on slash sheet) 5 s) as [[[id|e] s1] t1]; cbn;
        [|eexists; split; [reflexivity|eexists; reflexivity]].
      destruct (sheets_append w sv id _) as [[]|e]; cbn;
        eexists; split; try reflexivity; eexists; reflexivity.
    + eexists; split; reflexivity.
Qed.

(** ** Events and session of composed computations *)

Section Combinators.
Context {A B : Type}.
Implicit Types (m : M A) (k : A -> M B) (h : exn -> M A) (p : event -> bool).

Lemma only_ret p (a : A) : only p (ret a).
Proof. intros s. reflexivity. Qed.

Lemma only_raise p e : only p (@raise A e).
Proof. intros s. reflexivity. Qed.

Lemma only_quiet p (r : outcome A) : only p (quiet r).
Proof. intros s. reflexivity. Qed.

Lemma only_call p ev (r : outcome A) : p ev = true -> only p (call ev r).
Proof. intros H s. simpl. now rewrite H. Qed.

Lemma only_bind p m k : only p m -> (forall a, only p (k a)) -> only p (bind m k).
Proof.
  intros Hm Hk s. unfold bind. specialize (Hm s).
  destruct (m s) as [[[a|e] s1] t1]; [|exact Hm].
  specialize (Hk a s1). destruct (k a s1) as [[r s2] t2].
  simpl in *. now rewrite forallb_app, Hm, Hk.
Qed.

Lemma only_try_except p m sel h :
  only p m -> (forall e, only p (h e)) -> only p (try_except m sel h).
Proof.
  intros Hm Hh s. unfold try_except. specialize (Hm s).
  destruct (m s) as [[[a|e] s1] t1]; [exact Hm|].
  destruct (sel e); [|exact Hm].
  specialize (Hh e s1). destruct (h e s1) as [[r s2] t2].
  simpl in *. now rewrite forallb_app, Hm, Hh.
Qed.

Lemma keeps_ret (a : A) : keeps_session (ret a).
Proof. intros s. reflexivity. Qed.

Lemma keeps_raise e : keeps_session (@raise A e).
Proof. intros s. reflexivity. Qed.

Lemma keeps_quiet (r : outcome A) : keeps_session (quiet r).
Proof. intros s. reflexivity. Qed.

Lemma keeps_call ev (r : outcome A) : keeps_session (call ev r).
Proof. intros s. reflexivity. Qed.

Lemma keeps_bind m k :
  keeps_session m -> (forall a, keeps_session (k a)) -> keeps_session (bind m k).
Proof.
  intros Hm Hk s. unfold bind. specialize (Hm s).
  destruct (m s) as [[[a|e] s1] t1]; [|exact Hm].
  specialize (Hk a s1). destruct (k a s1) as [[r s2] t2].
  simpl in *. congruence.
Qed.

Lemma keeps_try_except m sel h :
  keeps_session m -> (forall e, keeps_session (h e)) ->
  keeps_session (try_except m sel h).
Proof.
  intros Hm Hh s. unfold try_except. specialize (Hm s).
  destruct (m s) as [[[a|e] s1] t1]; [exact Hm|].
  destruct (sel e); [|exact Hm].
  specialize (Hh e s1). destruct (h e s1) as [[r s2] t2].
  simpl in *. congruence.
Qed.

End Combinators.

Lemma only_emit p ev : p ev = true -> only p (emit ev).
Proof. intros H s. simpl. now rewrite H. Qed.

Lemma only_get p : only p get.
Proof. intros s. reflexivity. Qed.

Lemma only_put p s' ev : p ev = true -> only p (put s' ev).
Proof. intros H s. simpl. now rewrite H. Qed.

Lemma keeps_emit ev : keeps_session (emit ev).
Proof. intros s. reflexivity. Qed.

Lemma keeps_get : keeps_session get.
Proof. intros s. reflexivity. Qed.

(** One step of the analysis of a computation built from the monad's
    operations; branches of the program are split. *)
Ltac step_comp :=
  match goal with
  | |- only _ (bind _ _) => apply only_bind; [|intros ?]
  | |- only _ (try_catch _ _) => apply only_try_except; [|intros ?]
  | |- only _ (try_except _ _ _) => apply only_try_except; [|intros ?]
  | |- only _ (ret _) => apply only_ret
  | |- only _ (raise _) => apply only_raise
  | |- only _ (quiet _) => apply only_quiet
  | |- only _ (call _ _) => apply only_call; reflexivity
  | |- only _ (emit _) => apply only_emit; reflexivity
  | |- only _ (put _ _) => apply only_put; reflexivity
  | |- only _ get => apply only_get
  | |- keeps_session (bind _ _) => apply keeps_bind; [|intros ?]
  | |- keeps_session (try_catch _ _) => apply keeps_try_except; [|intros ?]
  | |- keeps_session (try_except _ _ _) => apply keeps_try_except; [|intros ?]
  | |- keeps_session (ret _) => apply keeps_ret
  | |- keeps_session (raise _) => apply keeps_raise
  | |- keeps_session (quiet _) => apply keeps_quiet
  | |- keeps_session (call _ _) => apply keeps_call
  | |- keeps_session (emit _) => apply keeps_emit
  | |- keeps_session get => apply keeps_get
  | |- context [match ?x with _ => _ end] => destruct x
  end.

Ltac comp := repeat step_comp.

(** The functions that do not touch the session. *)

Section Plain.
Variable p : event -> bool.
Hypothesis p_plain : forall ev, is_plain ev = true -> p ev = true.

Lemma only_py_index {X} (l : list X) i : only p (py_index l i).
Proof. unfold py_index. comp. Qed.

Lemma only_py_truediv a b : only p (py_truediv a b).
Proof. unfold py_truediv. comp. Qed.

Lemma only_parse_results divs : forall acc, only p (parse_results divs acc).
Proof.
  induction divs as [|d divs IH]; intros acc; cbn [parse_results]; [comp|].
  apply only_bind; [|intros ?; apply IH].
  unfold parse_result, st_warning. comp; apply only_emit, p_plain; reflexivity.
Qed.

Lemma only_search_web w idx query api_key :
  only p (search_web w idx query api_key).
Proof.
  unfold search_web, st_warning, st_error.
  repeat first
    [ apply only_parse_results
    | apply only_call, p_plain; reflexivity
    | apply only_emit, p_plain; reflexivity
    | step_comp ].
Qed.

Lemma only_search_loop w template api_key total column : forall idx results,
  only p (search_loop w template api_key total idx column results).
Proof.
  induction column as [|e rest IH]; intros idx results; cbn [search_loop];
    [comp|].
  unfold time_sleep.
  repeat first
    [ apply IH
    | apply only_py_truediv
    | apply only_search_web
    | apply only_emit, p_plain; reflexivity
    | step_comp ].
Qed.

Lemma only_run_search w template api_key column :
  only p (run_search w template api_key column).
Proof.
  unfold run_search. apply only_bind; [|intros ?; apply only_search_loop].
  apply only_emit, p_plain; reflexivity.
Qed.

End Plain.

Lemma keeps_py_index {X} (l : list X) i : keeps_session (py_index l i).
Proof. unfold py_index. comp. Qed.

Lemma keeps_py_truediv a b : keeps_session (py_truediv a b).
Proof. unfold py_truediv. comp. Qed.

Lemma keeps_parse_results divs : forall acc,
  keeps_session (parse_results divs acc).
Proof.
  induction divs as [|d divs IH]; intros acc; cbn [parse_results]; [comp|].
  apply keeps_bind; [|intros ?; apply IH].
  unfold parse_result, st_warning. comp.
Qed.

Lemma keeps_search_web w idx query api_key :
  keeps_session (search_web w idx query api_key).
Proof.
  unfold search_web, st_warning, st_error.
  repeat first [ apply keeps_parse_results | step_comp ].
Qed.

Lemma keeps_search_loop w template api_key total column : forall idx results,
  keeps_session (search_loop w template api_key total idx column results).
Proof.
  induction column as [|e rest IH]; intros idx results; cbn [search_loop];
    [comp|].
  unfold time_sleep.
  repeat first
    [ apply IH | apply keeps_py_truediv | apply keeps_search_web | step_comp ].
Qed.

Lemma keeps_run_search w template api_key column :
  keeps_session (run_search w template api_key column).
Proof.
  unfold run_search. apply keeps_bind; [|intros ?; apply keeps_search_loop].
  apply keeps_emit.
Qed.

Lemma only_getitem p df label : only p (getitem df label).
Proof. induction df as [|[name values] df IH]; cbn [getitem]; comp. exact IH. Qed.

Lemma keeps_getitem df label : keeps_session (getitem df label).
Proof. induction df as [|[name values] df IH]; cbn [getitem]; comp. exact IH. Qed.

Lemma only_load_data w ui : only is_plain (load_data w ui).
Proof.
  unfold load_data, load_csv, load_google_sheet, st_error.
  repeat first [ apply only_py_index | step_comp ].
Qed.

Lemma keeps_load_data w ui : keeps_session (load_data w ui).
Proof.
  unfold load_data, load_csv, load_google_sheet, st_error.
  repeat first [ apply keeps_py_index | step_comp ].
Qed.

Lemma only_display results : only is_plain (display_search_results results).
Proof.
  unfold display_search_results. repeat first [ apply only_py_index | step_comp ].
Qed.

Lemma keeps_display results : keeps_session (display_search_results results).
Proof.
  unfold display_search_results. repeat first [ apply keeps_py_index | step_comp ].
Qed.

Lemma only_results_section w ui : only is_plain (results_section w ui).
Proof.
  unfold results_section, update_google_sheet, st_error, st_success.
  repeat first [ apply only_py_index | step_comp ].
Qed.

Lemma keeps_results_section w ui : keeps_session (results_section w ui).
Proof.
  unfold results_section, update_google_sheet, st_error, st_success.
  repeat first [ apply keeps_py_index | step_comp ].
Qed.

(** ** The session follows the trace *)

Lemma follows_batch_app t1 : forall cur t2,
  follows_batch cur t1 -> follows_batch (held_batch cur t1) t2 ->
  follows_batch cur (t1 ++ t2).
Proof.
  induction t1 as [|ev t1 IH]; intros cur t2 H1 H2; [exact H2|].
  destruct ev; cbn [app follows_batch held_batch] in *;
    try (apply IH; assumption);
    (split; [apply H1|apply IH; [apply H1|exact H2]]).
Qed.

Lemma held_batch_app t1 : forall cur t2,
  held_batch cur (t1 ++ t2) = held_batch (held_batch cur t1) t2.
Proof.
  induction t1 as [|ev t1 IH]; intros cur t2; [reflexivity|].
  destruct ev; cbn [app held_batch]; apply IH.
Qed.

Lemma held_records_app t1 : forall cur t2,
  held_records cur (t1 ++ t2) = held_records (held_records cur t1) t2.
Proof.
  induction t1 as [|ev t1 IH]; intros cur t2; [reflexivity|].
  destruct ev; cbn [app held_records]; apply IH.
Qed.

Lemma plain_trace t :
  forallb is_plain t = true ->
  forall cur rec,
    follows_batch cur t /\ held_batch cur t = cur /\ held_records rec t = rec.
Proof.
  induction t as [|ev t IH]; intros H cur rec; [now repeat split|].
  cbn [forallb] in H. apply andb_prop in H. destruct H as [Hev Ht].
  destruct ev; try discriminate Hev;
    cbn [follows_batch held_batch held_records]; apply IH, Ht.
Qed.

Lemma tracks_plain {A} (m : M A) :
  only is_plain m -> keeps_session m -> tracks m.
Proof.
  intros Ho Hk s. unfold tracks_at. rewrite (Hk s).
  destruct (plain_trace _ (Ho s) (current_search_results s) (processed_results s))
    as (F & B & R).
  now rewrite B, R.
Qed.

Lemma tracks_at_bind {A B} (m : M A) (k : A -> M B) s :
  tracks_at m s ->
  (forall a, (m s).1.1 = Ret a -> tracks_at (k a) (m s).1.2) ->
  tracks_at (bind m k) s.
Proof.
  unfold tracks_at, bind. intros (F & C & P) Hk.
  destruct (m s) as [[[a|e] s1] t1]; cbn [fst snd] in *; [|now repeat split].
  destruct (Hk a eq_refl) as (F2 & C2 & P2).
  destruct (k a s1) as [[r s2] t2]; cbn [fst snd] in *.
  rewrite held_batch_app, held_records_app, <- C, <- P.
  repeat split; [|assumption..].
  apply follows_batch_app; [exact F|now rewrite <- C].
Qed.

Lemma tracks_bind {A B} (m : M A) (k : A -> M B) :
  tracks m -> (forall a, tracks (k a)) -> tracks (bind m k).
Proof. intros Hm Hk s. apply tracks_at_bind; [apply Hm|intros a _; apply Hk]. Qed.

Lemma tracks_at_set_current results s :
  batch_of_search results ->
  tracks_at (set_current_search_results results) s.
Proof. intros H. now repeat split. Qed.

Lemma tracks_at_set_processed results s :
  records_for (current_search_results s) results ->
  tracks_at (set_processed_results results) s.
Proof. intros H. now repeat split. Qed.

Lemma follows_batch_effects t : forall cur,
  follows_batch cur (effects t) -> follows_batch cur t.
Proof.
  induction t as [|ev t IH]; intros cur H; [exact I|].
  destruct ev; cbn [effects List.filter is_message negb follows_batch] in *;
    try (apply IH; exact H); (split; [apply H|apply IH, H]).
Qed.

Lemma held_batch_effects t : forall cur,
  held_batch cur (effects t) = held_batch cur t.
Proof.
  induction t as [|ev t IH]; intros cur; [reflexivity|].
  destruct ev; cbn [effects List.filter is_message negb held_batch]; apply IH.
Qed.

Lemma held_records_effects t : forall cur,
  held_records cur (effects t) = held_records cur t.
Proof.
  induction t as [|ev t IH]; intros cur; [reflexivity|].
  destruct ev; cbn [effects List.filter is_message negb held_records]; apply IH.
Qed.

Lemma extraction_events_follow held prompt total batch : forall idx rec,
  batch ⊆ held ->
  follows_batch (Some held) (extraction_events prompt total idx batch)
  /\ held_batch (Some held) (extraction_events prompt total idx batch)
     = Some held
  /\ held_records rec (extraction_events prompt total idx batch) = rec.
Proof.
  induction batch as [|r rest IH]; intros idx rec Hsub; [now repeat split|].
  cbn [extraction_events app follows_batch held_batch held_records].
  destruct (IH (idx + 1)%nat rec) as (F & B & R).
  { intros x Hx. apply Hsub. now right. }
  repeat split; [|assumption..].
  exists held, r, prompt. repeat split. apply Hsub. now left.
Qed.

Lemma tracks_at_run_extraction w prompt batch s :
  current_search_results s = Some batch ->
  tracks_at (run_extraction w prompt batch) s.
Proof.
  intros Hcur. unfold tracks_at.
  destruct (run_extraction_spec w prompt batch s) as (t & H & E).
  rewrite H, Hcur. cbn [fst snd].
  destruct (extraction_events_follow batch prompt (length batch) batch 0%nat
              (processed_results s)) as (F & B & R); [done|].
  rewrite <- held_batch_effects, <- held_records_effects, E.
  cbn [held_batch held_records]. rewrite B, R.
  split; [|split; [exact Hcur|reflexivity]].
  apply follows_batch_effects. rewrite E. exact F.
Qed.

Lemma bind_get {A} (k : session -> M A) s : bind get k s = k s s.
Proof. unfold bind, get. now destruct (k s s) as [[r s2] t2]. Qed.

Lemma tracks_at_ext {A} (m m' : M A) s :
  m s = m' s -> tracks_at m' s -> tracks_at m s.
Proof. unfold tracks_at. now intros ->. Qed.

Lemma tracks_results_section w ui : tracks (results_section w ui).
Proof.
  apply tracks_plain; [apply only_results_section|apply keeps_results_section].
Qed.

Lemma tracks_message ev : is_message ev = true -> tracks (emit ev).
Proof.
  intros H. apply tracks_plain; [|apply keeps_emit].
  apply only_emit. now destruct ev.
Qed.

Lemma tracks_extraction_section w ui : tracks (extraction_section w ui).
Proof.
  intros s. unfold extraction_section.
  eapply tracks_at_ext; [apply bind_get|].
  destruct (current_search_results s) as [[|first rest]|] eqn:Hcur;
    try apply tracks_results_section.
  apply tracks_at_bind.
  { apply tracks_plain; [apply only_display|apply keeps_display]. }
  intros _ _. rewrite keeps_display.
  destruct (process_clicked ui); [|apply tracks_results_section].
  destruct (is_empty (groq_api_key ui)); [now apply tracks_message|].
  apply tracks_at_bind; [now apply tracks_at_run_extraction|].
  destruct (run_extraction_spec w (custom_prompt ui) (first :: rest) s)
    as (t & H & _).
  rewrite H. cbn [fst snd]. intros results [= <-].
  apply tracks_at_bind.
  { apply tracks_at_set_processed. rewrite Hcur.
    now exists (first :: rest), w, (custom_prompt ui). }
  intros _ _. apply tracks_bind; [now apply tracks_message|].
  intros _. apply tracks_results_section.
Qed.

Lemma tracks_search_section w ui df : tracks (search_section w ui df).
Proof.
  intros s. unfold search_section.
  destruct (run_search_clicked ui); [|apply tracks_extraction_section].
  destruct (is_empty (serp_api_key ui)); [now apply tracks_message|].
  apply tracks_at_bind.
  { apply tracks_plain; [apply only_getitem|apply keeps_getitem]. }
  intros column _. rewrite keeps_getitem.
  apply tracks_at_bind.
  { apply tracks_plain; [|apply keeps_run_search].
    apply only_run_search. exact (fun _ H => H). }
  rewrite keeps_run_search.
  destruct (run_search_spec w (search_prompt_template ui) (serp_api_key ui)
              column s) as (t & H & _).
  rewrite H. cbn [fst]. intros results [= <-].
  apply tracks_at_bind.
  { apply tracks_at_set_current. now eexists w, _, _, column. }
  intros _ _. apply tracks_bind; [now apply tracks_message|].
  intros _. apply tracks_extraction_section.
Qed.

Lemma tracks_main w ui : tracks (main w ui).
Proof.
  unfold main. apply tracks_bind.
  { apply tracks_plain; [apply only_load_data|apply keeps_load_data]. }
  intros [df|]; [|apply tracks_plain; [apply only_ret|apply keeps_ret]].
  apply tracks_bind; [now apply tracks_message|].
  intros _. apply tracks_search_section.
Qed.

Lemma run_script_tracks runs : forall s,
  follows_batch (current_search_results s) (run_script runs s).2
  /\ current_search_results (run_script runs s).1
     = held_batch (current_search_results s) (run_script runs s).2
  /\ processed_results (run_script runs s).1
     = held_records (processed_results s) (run_script runs s).2.
Proof.
  induction runs as [|[w ui] runs IH]; intros s; [now repeat split|].
  cbn [run_script].
  destruct (tracks_main w ui s) as (F & C & P).
  destruct (main w ui s) as [[o s1] t1]; cbn [fst snd] in *.
  destruct (IH s1) as (F2 & C2 & P2).
  destruct (run_script runs s1) as [s2 t2]; cbn [fst snd] in *.
  rewrite held_batch_app, held_records_app, <- C, <- P.
  repeat split; [|assumption..].
  apply follows_batch_app; [exact F|now rewrite <- C].
Qed.


(** ** The model on concrete inputs *)

Example replace_entity :
  replace (lit "{entity}") (lit "Acme") (lit "about {entity} and {entity}!")
  = lit "about Acme and Acme!".
Proof. vm_compute. reflexivity. Qed.

Example strip_both : strip (lit "  ok then ") = lit "ok then".
Proof. vm_compute. reflexivity. Qed.

Example split_sheet_url :
  split_on slash (lit "https://docs.google.com/spreadsheets/d/ID42/edit")
    !! 5%nat
  = Some (lit "ID42").
Proof. vm_compute. reflexivity. Qed.

Example search_web_filters :
  (search_web Sample.two_result_world 0 (lit "Acme") (lit "k")
     initial_session).1.1
  = Ret [Sample.acme_result; Sample.wiki_result].
Proof. vm_compute. reflexivity. Qed.

(** The spec's scenario: one row, two records found, then one extraction
    record for that row. *)
Example acme_scenario :
  (run_script
     [(Sample.two_result_world, Sample.search_click Sample.csv_bytes);
      (Sample.two_result_world, Sample.process_click Sample.csv_bytes)]
     initial_session).1
  = mkSession
      (Some [mkExtraction (CellStr (lit "Acme")) (lit "Acme makes anvils.")])
      (Some [mkBatch (CellStr (lit "Acme"))
               [Sample.acme_result; Sample.wiki_result]]).
Proof. vm_compute. reflexivity. Qed.

(** Without a search before it, the second button is not even shown. *)
Example no_extraction_before_search :
  run_script [(Sample.two_result_world, Sample.process_click Sample.csv_bytes)]
    initial_session
  = (initial_session,
     [EvReadCsv Utf8; EvSuccess (lit "Data loaded successfully!")]).
Proof. vm_compute. reflexivity. Qed.

(** A table without rows: the empty batch is assigned after no request. *)
Example no_row_run :
  effects (main Sample.no_row_world (Sample.search_click Sample.csv_bytes)
             initial_session).2
  = [EvReadCsv Utf8; EvProgressInit; EvStoreBatch []].
Proof. vm_compute. reflexivity. Qed.

(** [follows_batch] rejects a call made before any batch is assigned. *)
Example chat_before_batch_rejected p : ~ follows_batch None [EvChat p].
Proof. intros [(b & r & q & H & _) _]. discriminate H. Qed.

(** * The rest of the code *)

(** ** [search_web]: requests and failures *)

(** X1. Whatever the collaborators answer, [search_web] returns normally and
    leaves the session alone; it makes exactly one request, to the proxy
    address built from the key and the query as given (the query is not
    URL-encoded), and everything else it shows is a message. *)
Theorem search_web_single_request w idx query api_key s :
  exists rs t,
    search_web w idx query api_key s
    = (Ret rs, s,
       EvHttpGet (lit "https://api.scraperapi.com?api_key=" ++ api_key
                  ++ lit "&url=https://www.google.com/search?q=" ++ query)
       :: t)
    /\ forallb is_message t = true.
Proof.
  destruct (search_web_spec w idx query api_key s) as (t & H & Ht).
  exists (search_web_result w idx query api_key), t. now split.
Qed.

(** X2. A response whose text is empty or only whitespace gives no result
    and one warning that names the query; the page is not parsed. *)
Theorem search_web_blank_response w idx query api_key text s :
  requests_get w idx (search_url query api_key) = Ret text ->
  is_empty (strip text) = true ->
  search_web w idx query api_key s
  = (Ret [], s,
     [EvHttpGet (search_url query api_key);
      EvWarning (lit "Empty response for query: " ++ query)]).
Proof.
  intros H E. unfold search_web, try_catch, try_except, bind, call.
  rewrite H, E. reflexivity.
Qed.

Lemma search_web_blank_response_witness :
  search_web Scenario.blank_page_world 0 (lit "Acme") (lit "k") initial_session
  = (Ret [], initial_session,
     [EvHttpGet (search_url (lit "Acme") (lit "k"));
      EvWarning (lit "Empty response for query: " ++ lit "Acme")]).
Proof.
  apply (search_web_blank_response Scenario.blank_page_world 0 (lit "Acme")
           (lit "k") (lit "   ") initial_session); vm_compute; reflexivity.
Defined.

(** X3. A failed request gives no result and one error message that ends
    with the exception's text; the message says "fetching" for a
    [RequestException] and "parsing" for any other exception. *)
Theorem search_web_failed_request w idx query api_key e s :
  requests_get w idx (search_url query api_key) = Raise e ->
  search_web w idx query api_key s
  = (Ret [], s,
     [EvHttpGet (search_url query api_key);
      EvError ((if is_request_exception e
                then lit "Error fetching search results: "
                else lit "Error parsing search results: ") ++ exn_msg e)]).
Proof.
  intros H. unfold search_web, try_catch, try_except, bind, call.
  rewrite H. now destruct (is_request_exception e).
Qed.

Lemma search_web_failed_request_witness :
  search_web Scenario.offline_world 3 (lit "Acme") (lit "k") initial_session
  = (Ret [], initial_session,
     [EvHttpGet (search_url (lit "Acme") (lit "k"));
      EvError (lit "Error fetching search results: "
               ++ lit "connection refused")]).
Proof.
  apply (search_web_failed_request Scenario.offline_world 3 (lit "Acme")
           (lit "k") (mkExn RequestException (lit "connection refused"))
           initial_session).
  reflexivity.
Defined.

(** X4. A result [div] whose parsing raises is skipped: the records the
    result loop returns are those it returns without that [div], the ones
    before it and after it included. *)
Theorem parse_results_skips_faulty pre bad post acc s e :
  div_fault bad = Some e ->
  (parse_results (pre ++ bad :: post) acc s).1.1
  = (parse_results (pre ++ post) acc s).1.1.
Proof.
  intros H.
  destruct (parse_results_spec (pre ++ bad :: post) acc s) as (t1 & H1 & _).
  destruct (parse_results_spec (pre ++ post) acc s) as (t2 & H2 & _).
  rewrite H1, H2. cbn [fst]. do 2 f_equal.
  rewrite !omap_app, omap_cons.
  unfold kept, record_of. now rewrite H.
Qed.

Lemma parse_results_skips_faulty_witness :
  (parse_results ([Sample.acme_div] ++ Scenario.faulty_div :: [Sample.wiki_div])
     [] initial_session).1.1
  = (parse_results ([Sample.acme_div] ++ [Sample.wiki_div]) [] initial_session).1.1.
Proof.
  apply (parse_results_skips_faulty [Sample.acme_div] Scenario.faulty_div
           [Sample.wiki_div] [] initial_session
           (mkExn OtherError (lit "broken tag"))).
  reflexivity.
Defined.

(** ** The two loops *)

Lemma http_urls_app t1 t2 : http_urls (t1 ++ t2) = http_urls t1 ++ http_urls t2.
Proof.
  unfold http_urls. induction t1 as [|ev t1 IH]; [reflexivity|].
  cbn [app]. rewrite !omap_cons, IH. now destruct ev.
Qed.

Lemma http_urls_effects t : http_urls (effects t) = http_urls t.
Proof.
  unfold http_urls, effects.
  induction t as [|ev t IH]; [reflexivity|].
  cbn [List.filter]. destruct ev; cbn [is_message negb];
    rewrite !omap_cons; now rewrite IH.
Qed.

Lemma sleeps_app t1 t2 : sleeps (t1 ++ t2) = (sleeps t1 + sleeps t2)%nat.
Proof. unfold sleeps. now rewrite List.filter_app, length_app. Qed.

Lemma sleeps_effects t : sleeps (effects t) = sleeps t.
Proof.
  unfold sleeps, effects.
  induction t as [|ev t IH]; [reflexivity|].
  cbn [List.filter]. destruct ev; cbn [is_message negb List.filter length];
    now rewrite IH.
Qed.

Lemma search_events_requests template api_key total column : forall idx,
  http_urls (search_events template api_key total idx column)
  = List.map (fun e => search_url (search_query template e) api_key) column
  /\ sleeps (search_events template api_key total idx column) = length column.
Proof.
  induction column as [|e rest IH]; intros idx; [now split|].
  cbn [search_events List.map length].
  rewrite http_urls_app, sleeps_app. destruct (IH (idx + 1)%nat) as [-> ->].
  now split.
Qed.

Lemma run_search_requests w template api_key column s :
  http_urls (run_search w template api_key column s).2
  = List.map (fun e => search_url (search_query template e) api_key) column
  /\ sleeps (run_search w template api_key column s).2 = length column.
Proof.
  destruct (run_search_spec w template api_key column s) as (t & H & E).
  rewrite H. cbn [snd].
  rewrite <- http_urls_effects, <- sleeps_effects, E.
  change (EvProgressInit :: ?l) with ([EvProgressInit] ++ l).
  rewrite http_urls_app, sleeps_app.
  destruct (search_events_requests template api_key (length column) column 0)
    as [-> ->].
  now split.
Qed.

(** X5. The search phase makes one request per row of the column, in row
    order, each for the template with the row's value in place of the
    placeholder, and pauses once per row; a row without results is not
    tried again. *)
Theorem run_search_one_request_per_row w template api_key column s :
  http_urls (run_search w template api_key column s).2
  = List.map
      (fun e =>
         search_url (replace (lit "{entity}") (py_str e) template) api_key)
      column
  /\ sleeps (run_search w template api_key column s).2 = length column.
Proof. exact (run_search_requests w template api_key column s). Qed.

Lemma lit_cons_nonempty (c : ascii) (rest : string) (tail : pystr) :
  is_empty (lit (String c rest) ++ tail) = false.
Proof. vm_compute. reflexivity. Qed.

Lemma extract_info_result_nonempty w idx found prompt :
  is_empty (extract_info_result w idx found prompt) = false.
Proof.
  unfold extract_info_result, groq_error.
  destruct (chat_create w idx (build_prompt prompt found)) as [[|[text|] ?]|e];
    try apply lit_cons_nonempty.
  destruct (is_empty (strip text)) eqn:E; [|exact E].
  vm_compute. reflexivity.
Qed.

Lemma extraction_records_nonempty w prompt batch : forall idx,
  Forall (fun r => is_empty (extracted_info r) = false)
    (extraction_records w prompt idx batch).
Proof.
  induction batch as [|r rest IH]; intros idx; [constructor|].
  cbn [extraction_records]. constructor; [|apply IH].
  apply extract_info_result_nonempty.
Qed.

(** X6. No record of the extraction phase has an empty text: an answer that
    is empty once trimmed is replaced by the fixed sentence, and a failure
    by its error text. *)
Theorem extraction_text_never_empty w prompt batch s :
  exists records t,
    run_extraction w prompt batch s = (Ret records, s, t)
    /\ Forall (fun r => is_empty (extracted_info r) = false) records.
Proof.
  destruct (run_extraction_spec w prompt batch s) as (t & H & _).
  eexists _, t. split; [exact H|]. apply extraction_records_nonempty.
Qed.

(** ** The placeholder of the query template *)

Lemma replace_from_no_brace new s :
  brace ∉ s -> replace_from (lit "{entity}") new 0 s = s.
Proof.
  induction s as [|c s IH]; intros H; [reflexivity|].
  cbn [replace_from].
  assert (Hc : (brace =? c) = false).
  { apply N.eqb_neq. intros <-. apply H. now left. }
  change (startswith (lit "{entity}") (c :: s))
    with ((brace =? c) && startswith (lit "entity}") s).
  rewrite Hc. cbn [andb]. f_equal. apply IH.
  intros Hin. apply H. now right.
Qed.

Lemma startswith_app p s : startswith p (p ++ s) = true.
Proof.
  induction p as [|a p IH]; [reflexivity|].
  change (startswith (a :: p) ((a :: p) ++ s))
    with ((a =? a) && startswith p (p ++ s)).
  now rewrite N.eqb_refl, IH.
Qed.

Lemma replace_from_skip old new n skipped s :
  length skipped = n ->
  replace_from old new n (skipped ++ s) = replace_from old new 0 s.
Proof.
  revert skipped. induction n as [|n IH]; intros skipped Hlen.
  - now destruct skipped.
  - destruct skipped as [|c skipped]; [discriminate|].
    cbn [app replace_from]. apply IH. now injection Hlen.
Qed.

(** X7. A template that holds the placeholder [{entity}] once, with no
    other opening brace, gives the query in which the row's value stands
    where the placeholder stood; the value itself is not searched for
    placeholders. *)
Theorem query_fills_placeholder before after value :
  brace ∉ before -> brace ∉ after ->
  replace (lit "{entity}") value (before ++ lit "{entity}" ++ after)
  = before ++ value ++ after.
Proof.
  intros Hb Ha. change (replace ?o ?n ?s) with (replace_from o n 0 s).
  induction before as [|c before IH].
  - cbn [app].
    change (lit "{entity}") with (brace :: lit "entity}") at 2.
    cbn [app replace_from].
    change (brace :: lit "entity}" ++ after) with (lit "{entity}" ++ after).
    rewrite startswith_app. f_equal.
    change (Init.Nat.pred (length (lit "{entity}"))) with 7%nat.
    rewrite (replace_from_skip _ _ 7 (lit "entity}") after) by reflexivity.
    now apply replace_from_no_brace.
  - cbn [app replace_from].
    assert (Hc : (brace =? c) = false).
    { apply N.eqb_neq. intros <-. apply Hb. now left. }
    change (startswith (lit "{entity}") (c :: ?s))
      with ((brace =? c) && startswith (lit "entity}") s).
    rewrite Hc. cbn [andb]. f_equal. apply IH.
    intros Hin. apply Hb. now right.
Qed.

Lemma query_fills_placeholder_witness :
  replace (lit "{entity}") (lit "{entity} Inc")
    (lit "Get me information about " ++ lit "{entity}" ++ lit " today")
  = lit "Get me information about " ++ lit "{entity} Inc" ++ lit " today".
Proof.
  apply (query_fills_placeholder (lit "Get me information about ")
           (lit " today") (lit "{entity} Inc"));
    vm_compute; intros H; repeat (apply elem_of_cons in H as [H|H]; [discriminate H|]);
    now apply elem_of_nil in H.
Defined.

(** X8. A template without an opening brace is searched as it is, the same
    query for every row. *)
Theorem query_without_placeholder template value :
  brace ∉ template ->
  replace (lit "{entity}") value template = template.
Proof.
  intros H. change (replace ?o ?n ?s) with (replace_from o n 0 s).
  now apply replace_from_no_brace.
Qed.

Lemma query_without_placeholder_witness :
  replace (lit "{entity}") (lit "Acme") (lit "anvil makers") = lit "anvil makers".
Proof.
  apply (query_without_placeholder (lit "anvil makers") (lit "Acme")).
  vm_compute; intros H;
    repeat (apply elem_of_cons in H as [H|H]; [discriminate H|]);
    now apply elem_of_nil in H.
Defined.

(** ** The loaders *)

(** X9. When the first read of an upload fails to decode, [load_csv] reads
    it again as Latin-1 and returns that table; if the second read fails,
    for whatever reason, it returns [None] after an error message and does
    not raise. *)
Theorem load_csv_latin1_fallback w file e s :
  read_csv w file Utf8 = Raise e ->
  is_unicode_decode_error e = true ->
  load_csv w file s
  = match read_csv w file Latin1 with
    | Ret df => (Ret (Some df), s, [EvReadCsv Utf8; EvReadCsv Latin1])
    | Raise e' =>
        (Ret None, s,
         [EvReadCsv Utf8; EvReadCsv Latin1;
          EvError (lit "Error loading CSV: " ++ exn_msg e')])
    end.
Proof.
  intros H He. unfold load_csv, try_catch, try_except, bind, call.
  rewrite H, He. now destruct (read_csv w file Latin1).
Qed.

Lemma load_csv_latin1_fallback_witness :
  load_csv Scenario.latin1_world Sample.csv_bytes initial_session
  = (Ret (Some Sample.acme_table), initial_session,
     [EvReadCsv Utf8; EvReadCsv Latin1]).
Proof.
  apply (load_csv_latin1_fallback Scenario.latin1_world Sample.csv_bytes
           (mkExn UnicodeDecodeError (lit "invalid start byte"))
           initial_session); reflexivity.
Defined.

Lemma load_google_sheet_returns w credentials sheet s :
  exists r t,
    load_google_sheet w credentials sheet s = (Ret r, s, t)
    /\ match r with
       | Some _ => forallb (fun ev => negb (is_message ev)) t = true
       | None => exists t' msg, t = t' ++ [EvError msg]
       end.
Proof.
  unfold load_google_sheet, try_catch, try_except, bind, call, quiet, py_index.
  destruct (python_eval w credentials) as [value|e]; cbn;
    [|eexists _, _; split; [reflexivity|now eexists [_], _]].
  destruct (from_service_account_info w value) as [c|e]; cbn;
    [|eexists _, _; split; [reflexivity|now eexists [_; _], _]].
  destruct (split_on slash sheet !! 5%nat) as [id|]; cbn;
    [|eexists _, _; split; [reflexivity|now eexists [_; _], _]].
  destruct (build w c) as [sv|e]; cbn;
    [|eexists _, _; split; [reflexivity|now eexists [_; _; _], _]].
  destruct (sheets_get w sv id) as [[|h rows]|e]; cbn;
    try (eexists _, _; split; [reflexivity|now eexists [_; _; _; _], _]).
  destruct (make_dataframe w rows h) as [df|e]; cbn;
    eexists _, _; (split; [reflexivity|]);
    [reflexivity|now eexists [_; _; _; _], _].
Qed.

(** X10. Once [eval] has returned a value for the credential text,
    [load_google_sheet] returns normally whatever the credential check,
    [build], the read of the sheet and the making of the table raise: it
    returns a table without any message, or [None] after a trace that ends
    in an error message. *)
Theorem load_google_sheet_reports_failure w credentials sheet value s :
  python_eval w credentials = Ret value ->
  exists r,
    (load_google_sheet w credentials sheet s).1.1 = Ret r
    /\ match r with
       | Some _ =>
           forallb (fun ev => negb (is_message ev))
             (load_google_sheet w credentials sheet s).2 = true
       | None =>
           exists t msg,
             (load_google_sheet w credentials sheet s).2 = t ++ [EvError msg]
       end.
Proof.
  intros _.
  destruct (load_google_sheet_returns w credentials sheet s) as (r & t & H & Hr).
  exists r. rewrite H. now split.
Qed.

Lemma load_google_sheet_reports_failure_witness :
  exists r,
    (load_google_sheet Scenario.sheet_world (lit "{}") Scenario.sheet_url
       initial_session).1.1 = Ret r
    /\ match r with
       | Some _ =>
           forallb (fun ev => negb (is_message ev))
             (load_google_sheet Scenario.sheet_world (lit "{}")
                Scenario.sheet_url initial_session).2 = true
       | None =>
           exists t msg,
             (load_google_sheet Scenario.sheet_world (lit "{}")
                Scenario.sheet_url initial_session).2 = t ++ [EvError msg]
       end.
Proof.
  apply (load_google_sheet_reports_failure Scenario.sheet_world (lit "{}")
           Scenario.sheet_url (PyObj (lit "{}")) initial_session).
  reflexivity.
Defined.

Lemma split_on_no_sep id rest :
  slash ∉ id ->
  split_on slash (id ++ slash :: rest) = id :: split_on slash rest.
Proof.
  induction id as [|c id IH]; intros H; [reflexivity|].
  cbn [app split_on].
  assert (Hc : (c =? slash) = false).
  { apply N.eqb_neq. intros ->. apply H. now left. }
  rewrite Hc, IH; [reflexivity|].
  intros Hin. apply H. now right.
Qed.

Lemma split_on_sep s : split_on slash (slash :: s) = [] :: split_on slash s.
Proof. reflexivity. Qed.

(** X11. For an address of the usual form, the sheet identifier that
    [load_google_sheet] reads is the segment after [/d/]: with the three
    earlier calls answered, the fourth call is the read of that sheet. *)
Theorem load_google_sheet_reads_sheet_id w credentials id rest value cred
    service s :
  slash ∉ id ->
  python_eval w credentials = Ret value ->
  from_service_account_info w value = Ret cred ->
  build w cred = Ret service ->
  exists t,
    (load_google_sheet w credentials
       (lit "https://docs.google.com/spreadsheets/d/" ++ id ++ slash :: rest)
       s).2
    = [EvEval credentials; EvCredentials value; EvBuild cred; EvSheetsGet id]
      ++ t.
Proof.
  intros Hid He Hc Hb.
  assert (Hsplit :
    split_on slash
      (lit "https://docs.google.com/spreadsheets/d/" ++ id ++ slash :: rest)
      !! 5%nat = Some id).
  { change (lit "https://docs.google.com/spreadsheets/d/" ++ id ++ slash :: rest)
      with (lit "https:" ++ slash :: slash :: lit "docs.google.com" ++ slash
            :: lit "spreadsheets" ++ slash :: lit "d" ++ slash
            :: id ++ slash :: rest).
    rewrite (split_on_no_sep (lit "https:")), split_on_sep.
    rewrite !split_on_no_sep; try reflexivity; try exact Hid.
    all:  vm_compute; intros H;
      repeat (apply elem_of_cons in H as [H|H]; [discriminate H|]);
      now apply elem_of_nil in H. }
  unfold load_google_sheet, try_catch, try_except, bind, call, quiet, py_index.
  rewrite He, Hc, Hsplit. cbn. rewrite Hb. cbn.
  destruct (sheets_get w service id) as [[|h rows]|e]; cbn;
    try (eexists; reflexivity).
  destruct (make_dataframe w rows h); cbn; eexists; reflexivity.
Qed.

Lemma load_google_sheet_reads_sheet_id_witness :
  exists t,
    (load_google_sheet Scenario.sheet_world (lit "{}")
       (lit "https://docs.google.com/spreadsheets/d/" ++ lit "ID42"
        ++ slash :: lit "edit#gid=0") initial_session).2
    = [EvEval (lit "{}"); EvCredentials (PyObj (lit "{}"));
       EvBuild (PyObj (lit "{}")); EvSheetsGet (lit "ID42")] ++ t.
Proof.
  apply (load_google_sheet_reads_sheet_id Scenario.sheet_world (lit "{}")
           (lit "ID42") (lit "edit#gid=0") (PyObj (lit "{}")) (PyObj (lit "{}"))
           (PyObj (lit "{}")) initial_session); try reflexivity.
  vm_compute; intros H;
    repeat (apply elem_of_cons in H as [H|H]; [discriminate H|]);
    now apply elem_of_nil in H.
Defined.

(** X12. An address with fewer than six segments between slashes makes
    [load_google_sheet] give up with the message of an index error, after
    the credential text was evaluated and checked and before any service is
    built or any sheet read. *)
Theorem load_google_sheet_short_url w credentials sheet value cred s :
  (length (split_on slash sheet) <= 5)%nat ->
  python_eval w credentials = Ret value ->
  from_service_account_info w value = Ret cred ->
  load_google_sheet w credentials sheet s
  = (Ret None, s,
     [EvEval credentials; EvCredentials value;
      EvError (lit "Error loading Google Sheet: "
               ++ lit "list index out of range")]).
Proof.
  intros Hlen He Hc.
  unfold load_google_sheet, try_catch, try_except, bind, call, quiet, py_index.
  rewrite He, Hc, (lookup_ge_None_2 (split_on slash sheet) 5 Hlen).
  reflexivity.
Qed.

Lemma load_google_sheet_short_url_witness :
  load_google_sheet Scenario.sheet_world (lit "{}")
    (lit "docs.google.com/spreadsheets/d/ID42") initial_session
  = (Ret None, initial_session,
     [EvEval (lit "{}"); EvCredentials (PyObj (lit "{}"));
      EvError (lit "Error loading Google Sheet: "
               ++ lit "list index out of range")]).
Proof.
  apply (load_google_sheet_short_url Scenario.sheet_world (lit "{}")
           (lit "docs.google.com/spreadsheets/d/ID42") (PyObj (lit "{}"))
           (PyObj (lit "{}")) initial_session); [vm_compute; lia|reflexivity..].
Defined.

Lemma update_google_sheet_returns w credentials sheet records s :
  (exists t ev,
     update_google_sheet w credentials sheet records s = (Ret tt, s, t ++ [ev])
     /\ is_message ev = true)
  /\ match python_eval w credentials with
     | Ret value =>
         match build w value, split_on slash sheet !! 5%nat with
         | Ret service, Some id =>
             List.filter
               (fun ev => match ev with EvSheetsAppend _ _ => true | _ => false end)
               (update_google_sheet w credentials sheet records s).2
             = [EvSheetsAppend id
                  (List.map (fun r => (result_entity r, extracted_info r))
                     records)]
         | _, _ => True
         end
     | Raise _ => True
     end.
Proof.
  unfold update_google_sheet, try_catch, try_except, bind, call, py_index,
    st_success, st_error, emit.
  destruct (python_eval w credentials) as [value|e]; cbn;
    [|split; [now eexists [_], _|exact I]].
  destruct (build w value) as [sv|e]; cbn;
    [|split; [now eexists [_; _], _|exact I]].
  destruct (split_on slash sheet !! 5%nat) as [id|]; cbn;
    [|split; [now eexists [_; _], _|exact I]].
  destruct (sheets_append w sv id _) as [[]|e]; cbn;
    (split; [now eexists [_; _; _], _|reflexivity]).
Qed.

(** X13. Once [eval] has returned a value for the credential text, the
    append of the results to the sheet returns normally whatever [build] and
    the append raise, and always ends in a message to the user; when [build]
    answers and the address has its sixth segment, the rows it sends are one
    per record, in order, the entity and its text. *)
Theorem update_google_sheet_always_reports w credentials sheet records value s :
  python_eval w credentials = Ret value ->
  (update_google_sheet w credentials sheet records s).1.1 = Ret tt
  /\ (exists t ev,
        (update_google_sheet w credentials sheet records s).2 = t ++ [ev]
        /\ is_message ev = true)
  /\ match build w value, split_on slash sheet !! 5%nat with
     | Ret service, Some id =>
         List.filter
           (fun ev => match ev with EvSheetsAppend _ _ => true | _ => false end)
           (update_google_sheet w credentials sheet records s).2
         = [EvSheetsAppend id
              (List.map (fun r => (result_entity r, extracted_info r))
                 records)]
     | _, _ => True
     end.
Proof.
  intros He.
  destruct (update_google_sheet_returns w credentials sheet records s)
    as ((t & ev & H & Hev) & Hrows).
  rewrite He in Hrows. rewrite H. cbn [fst snd]. split; [reflexivity|].
  split; [now exists t, ev|].
  rewrite H in Hrows. exact Hrows.
Qed.

Lemma update_google_sheet_always_reports_witness :
  (update_google_sheet Scenario.sheet_world (lit "{}") Scenario.sheet_url
     [mkExtraction (CellStr (lit "Acme")) (lit "Acme makes anvils.")]
     initial_session).1.1 = Ret tt
  /\ (exists t ev,
        (update_google_sheet Scenario.sheet_world (lit "{}") Scenario.sheet_url
           [mkExtraction (CellStr (lit "Acme")) (lit "Acme makes anvils.")]
           initial_session).2 = t ++ [ev]
        /\ is_message ev = true)
  /\ List.filter
       (fun ev => match ev with EvSheetsAppend _ _ => true | _ => false end)
       (update_google_sheet Scenario.sheet_world (lit "{}") Scenario.sheet_url
          [mkExtraction (CellStr (lit "Acme")) (lit "Acme makes anvils.")]
          initial_session).2
     = [EvSheetsAppend (lit "ID42")
          [(CellStr (lit "Acme"), lit "Acme makes anvils.")]].
Proof.
  apply (update_google_sheet_always_reports Scenario.sheet_world (lit "{}")
           Scenario.sheet_url
           [mkExtraction (CellStr (lit "Acme")) (lit "Acme makes anvils.")]
           (PyObj (lit "{}")) initial_session).
  reflexivity.
Defined.

(** ** The exceptions that can leave [main] *)

(** Exceptions are the instances of Python's [Exception], the ones an
    [except Exception] clause catches. *)

Section RaisesOnly.
Context {A B : Type}.
Variable P : exn -> Prop.

Lemma raises_only_ret (a : A) : raises_only P (ret a).
Proof. intros s e H. discriminate H. Qed.

Lemma raises_only_raise e : P e -> raises_only P (@raise A e).
Proof. intros HP s e' [= <-]. exact HP. Qed.

Lemma raises_only_call ev (r : outcome A) :
  (forall e, r = Raise e -> P e) -> raises_only P (call ev r).
Proof. intros H s e He. apply H. exact He. Qed.

Lemma raises_only_quiet (r : outcome A) :
  (forall e, r = Raise e -> P e) -> raises_only P (quiet r).
Proof. intros H s e He. apply H. exact He. Qed.

Lemma raises_only_bind (m : M A) (k : A -> M B) :
  raises_only P m -> (forall a, raises_only P (k a)) ->
  raises_only P (bind m k).
Proof.
  intros Hm Hk s e. unfold bind. specialize (Hm s).
  destruct (m s) as [[[a|e1] s1] t1]; cbn [fst snd] in *.
  - specialize (Hk a s1). destruct (k a s1) as [[r s2] t2]. exact (Hk e).
  - intros [= <-]. now apply Hm.
Qed.

Lemma raises_only_try_except (Q : exn -> Prop) (m : M A) sel h :
  raises_only Q m ->
  (forall e, Q e -> sel e = false -> P e) ->
  (forall e, raises_only P (h e)) ->
  raises_only P (try_except m sel h).
Proof.
  intros Hm Hsel Hh s e. unfold try_except. specialize (Hm s).
  destruct (m s) as [[[a|e1] s1] t1]; cbn [fst snd] in *; [discriminate|].
  destruct (sel e1) eqn:E.
  - specialize (Hh e1 s1). destruct (h e1 s1) as [[r s2] t2]. exact (Hh e).
  - intros [= <-]. apply Hsel; [now apply Hm|exact E].
Qed.

Lemma raises_only_try_catch (m : M A) h :
  (forall e, raises_only P (h e)) -> raises_only P (try_catch m h).
Proof.
  intros Hh. apply (raises_only_try_except (fun _ => True)).
  - intros s e _. exact I.
  - intros e _ H. discriminate H.
  - exact Hh.
Qed.

End RaisesOnly.

Lemma raises_only_emit P ev : raises_only P (emit ev).
Proof. intros s e H. discriminate H. Qed.

Lemma raises_only_get P : raises_only P get.
Proof. intros s e H. discriminate H. Qed.

Lemma raises_only_put P s' ev : raises_only P (put s' ev).
Proof. intros s e H. discriminate H. Qed.

Lemma update_google_sheet_no_raise P w credentials sheet records :
  raises_only P (update_google_sheet w credentials sheet records).
Proof.
  intros s e H.
  destruct (update_google_sheet_returns w credentials sheet records s)
    as ((t & ev & Hr & _) & _).
  rewrite Hr in H. discriminate H.
Qed.

Lemma run_search_no_raise P w template api_key column :
  raises_only P (run_search w template api_key column).
Proof.
  intros s e H.
  destruct (run_search_spec w template api_key column s) as (t & Hr & _).
  rewrite Hr in H. discriminate H.
Qed.

Lemma run_extraction_no_raise P w prompt batch :
  raises_only P (run_extraction w prompt batch).
Proof.
  intros s e H.
  destruct (run_extraction_spec w prompt batch s) as (t & Hr & _).
  rewrite Hr in H. discriminate H.
Qed.

Lemma getitem_raises df label :
  raises_only (fun e => e = mkExn KeyError label) (getitem df label).
Proof.
  induction df as [|[name values] df IH]; cbn [getitem].
  - now apply raises_only_raise.
  - destruct (decide (name = label)); [apply raises_only_ret|exact IH].
Qed.

Lemma raises_only_weaken {A} (P Q : exn -> Prop) (m : M A) :
  (forall e, P e -> Q e) -> raises_only P m -> raises_only Q m.
Proof. intros HPQ Hm s e H. apply HPQ, (Hm s e H). Qed.

Lemma results_section_no_raise P w ui : raises_only P (results_section w ui).
Proof.
  unfold results_section. apply raises_only_bind; [apply raises_only_get|].
  intros s. destruct (processed_results s) as [[|r records]|];
    try apply raises_only_ret.
  destruct (data_source ui); [apply raises_only_ret|].
  destruct (_ && _); [apply update_google_sheet_no_raise|apply raises_only_ret].
Qed.

(** X14. With "Upload CSV" chosen, so that no credential text is evaluated,
    a run of [main] can only end in one of three exceptions: the one the
    first [read_csv] of the upload raised, when it is not a decoding error;
    the [KeyError] of the lookup of the chosen column; the [IndexError] of
    the preview.  No exception that the search proxy, the page parser or the
    language model raise leaves [main]. *)
Theorem main_escapes w ui s e :
  data_source ui = UploadCSV ->
  (main w ui s).1.1 = Raise e -> main_escape w ui e.
Proof.
  intros Hcsv. revert s e. change (raises_only (main_escape w ui) (main w ui)).
  unfold main. apply raises_only_bind.
  { unfold load_data. rewrite Hcsv.
    destruct (uploaded_file ui) as [file|] eqn:Hfile; [|apply raises_only_ret].
    unfold load_csv.
    apply (raises_only_try_except _ (fun e => read_csv w file Utf8 = Raise e)).
    - apply raises_only_bind; [|intros; apply raises_only_ret].
      apply raises_only_call. intros e He. exact He.
    - intros e He Hsel. left. now exists file.
    - intros e. apply raises_only_try_catch. intros e'.
      apply raises_only_bind; [apply raises_only_emit|].
      intros; apply raises_only_ret. }
  assert (Hres : raises_only (main_escape w ui) (results_section w ui)).
  { unfold results_section. apply raises_only_bind; [apply raises_only_get|].
    intros s. rewrite Hcsv.
    destruct (processed_results s) as [[|r records]|]; apply raises_only_ret. }
  assert (Hext : raises_only (main_escape w ui) (extraction_section w ui)).
  { unfold extraction_section. apply raises_only_bind; [apply raises_only_get|].
    intros s. destruct (current_search_results s) as [[|first rest]|];
      try exact Hres.
    apply raises_only_bind.
    - unfold display_search_results, py_index.
      apply raises_only_bind; [|intros; apply raises_only_emit].
      destruct (_ !! _); [apply raises_only_ret|].
      apply raises_only_raise. right. now right.
    - intros _. destruct (process_clicked ui); [|exact Hres].
      destruct (is_empty (groq_api_key ui)); [apply raises_only_emit|].
      apply raises_only_bind; [apply run_extraction_no_raise|]. intros results.
      apply raises_only_bind.
      { unfold set_processed_results.
        apply raises_only_bind; [apply raises_only_get|].
        intros; apply raises_only_put. }
      intros _. apply raises_only_bind; [apply raises_only_emit|].
      intros _. exact Hres. }
  intros [df|]; [|apply raises_only_ret].
  apply raises_only_bind; [apply raises_only_emit|]. intros _.
  unfold search_section.
  destruct (run_search_clicked ui); [|exact Hext].
  destruct (is_empty (serp_api_key ui)); [apply raises_only_emit|].
  apply raises_only_bind.
  { eapply raises_only_weaken; [|apply getitem_raises].
    intros e ->. right. now left. }
  intros column.
  apply raises_only_bind; [apply run_search_no_raise|]. intros results.
  apply raises_only_bind.
  { unfold set_current_search_results.
    apply raises_only_bind; [apply raises_only_get|].
    intros; apply raises_only_put. }
  intros _. apply raises_only_bind; [apply raises_only_emit|].
  intros _. exact Hext.
Qed.

Lemma main_escapes_witness :
  main_escape Sample.one_result_world (Sample.search_click Sample.csv_bytes)
    (mkExn IndexError (lit "list index out of range")).
Proof.
  apply (main_escapes Sample.one_result_world
           (Sample.search_click Sample.csv_bytes) initial_session).
  - reflexivity.
  - vm_compute. reflexivity.
Defined.

(** ** What a run of [main] does and does not do *)

Lemma only_weaken {A} (p q : event -> bool) (m : M A) :
  (forall ev, p ev = true -> q ev = true) -> only p m -> only q m.
Proof.
  intros Hpq Hm s. specialize (Hm s).
  induction ((m s).2) as [|ev t IH]; [reflexivity|].
  cbn [forallb] in *. apply andb_prop in Hm. destruct Hm as [Hev Ht].
  now rewrite (Hpq ev Hev), IH.
Qed.

(** [H] bounds the events of a computation by [p], and [p] is within the
    kind asked for. *)
Ltac weaken_from p H :=
  apply (only_weaken p);
  [ let ev := fresh "ev" in
    intros ev; destruct ev; cbn; intros; first [reflexivity | discriminate]
  | apply H ].

Lemma forallb_effects p t :
  (forall ev, is_message ev = true -> p ev = true) ->
  forallb p (effects t) = true -> forallb p t = true.
Proof.
  intros Hmsg. unfold effects. induction t as [|ev t IH]; [reflexivity|].
  cbn [List.filter forallb]. destruct (is_message ev) eqn:E; cbn [negb forallb].
  - intros H. now rewrite (Hmsg ev E), IH.
  - intros [-> H]%andb_prop. now rewrite IH.
Qed.

Lemma search_events_kind template api_key total column : forall idx,
  forallb is_search_phase_event
    (search_events template api_key total idx column) = true.
Proof.
  induction column as [|e rest IH]; intros idx; [reflexivity|].
  cbn [search_events]. rewrite forallb_app, IH. reflexivity.
Qed.

Lemma extraction_events_kind prompt total batch : forall idx,
  forallb is_extraction_phase_event
    (extraction_events prompt total idx batch) = true.
Proof.
  induction batch as [|e rest IH]; intros idx; [reflexivity|].
  cbn [extraction_events]. rewrite forallb_app, IH. reflexivity.
Qed.

Lemma only_run_search_events w template api_key column :
  only is_search_phase_event (run_search w template api_key column).
Proof.
  intros s. destruct (run_search_spec w template api_key column s) as (t & H & E).
  rewrite H. cbn [snd]. apply forallb_effects; [now intros []|].
  rewrite E. cbn [forallb is_search_phase_event andb].
  apply search_events_kind.
Qed.

Lemma only_run_extraction_events w prompt batch :
  only is_extraction_phase_event (run_extraction w prompt batch).
Proof.
  intros s. destruct (run_extraction_spec w prompt batch s) as (t & H & E).
  rewrite H. cbn [snd]. apply forallb_effects; [now intros []|].
  rewrite E. cbn [forallb is_extraction_phase_event andb].
  apply extraction_events_kind.
Qed.

Lemma only_load_events w ui : only is_load_event (load_data w ui).
Proof.
  unfold load_data, load_csv, load_google_sheet, st_error.
  repeat first [ apply only_py_index; now intros [] | step_comp ].
Qed.

Lemma only_results_events w ui : only is_results_event (results_section w ui).
Proof.
  unfold results_section, update_google_sheet, st_error, st_success.
  repeat first [ apply only_py_index; now intros [] | step_comp ].
Qed.

Lemma only_preview results : only is_preview (display_search_results results).
Proof.
  unfold display_search_results.
  apply only_bind; [unfold py_index; comp|intros ?; comp].
Qed.

Lemma no_http_urls t :
  forallb (fun ev => match ev with EvHttpGet _ => false | _ => true end) t = true ->
  http_urls t = [].
Proof.
  unfold http_urls. induction t as [|ev t IH]; [reflexivity|].
  cbn [forallb]. intros [Hev Ht]%andb_prop. rewrite omap_cons, (IH Ht).
  now destruct ev.
Qed.

Lemma no_chat_prompts t :
  forallb (fun ev => match ev with EvChat _ => false | _ => true end) t = true ->
  chat_prompts t = [].
Proof.
  unfold chat_prompts. induction t as [|ev t IH]; [reflexivity|].
  cbn [forallb]. intros [Hev Ht]%andb_prop. rewrite omap_cons, (IH Ht).
  now destruct ev.
Qed.

Lemma no_batch_store_held t : forall cur,
  forallb not_batch_store t = true -> held_batch cur t = cur.
Proof.
  induction t as [|ev t IH]; intros cur; [reflexivity|].
  cbn [forallb]. intros [Hev Ht]%andb_prop.
  destruct ev; try discriminate Hev; cbn [held_batch]; now apply IH.
Qed.


Lemma forallb_weaken (p q : event -> bool) t :
  (forall ev, p ev = true -> q ev = true) ->
  forallb p t = true -> forallb q t = true.
Proof.
  intros Hpq. induction t as [|ev t IH]; [reflexivity|].
  cbn [forallb]. intros [Hev Ht]%andb_prop. now rewrite (Hpq ev Hev), IH.
Qed.

Lemma only_set_processed p results :
  p (EvStoreProcessed results) = true -> only p (set_processed_results results).
Proof. intros H s. cbn. now rewrite H. Qed.

Lemma only_set_current p results :
  p (EvStoreBatch results) = true -> only p (set_current_search_results results).
Proof. intros H s. cbn. now rewrite H. Qed.

(** The kinds of the parts of [main], for use with [weaken_from]. *)
Ltac main_parts :=
  repeat first
    [ weaken_from is_load_event only_load_events
    | weaken_from is_search_phase_event only_run_search_events
    | weaken_from is_extraction_phase_event only_run_extraction_events
    | weaken_from is_preview only_preview
    | weaken_from is_results_event only_results_events
    | apply only_getitem
    | apply only_set_current; reflexivity
    | apply only_set_processed; reflexivity
    | step_comp ].

Lemma only_extraction_section p w ui :
  (forall r, p (EvPreview r) = true) ->
  (forall ev, is_extraction_phase_event ev = true -> p ev = true) ->
  (forall r, p (EvStoreProcessed r) = true) ->
  (forall ev, is_results_event ev = true -> p ev = true) ->
  only p (extraction_section w ui).
Proof.
  intros Hprev Hext Hstore Hres.
  assert (Hr : only p (results_section w ui))
    by (apply (only_weaken is_results_event); [exact Hres|apply only_results_events]).
  unfold extraction_section, st_error, st_success.
  repeat first
    [ exact Hr
    | apply (only_weaken is_extraction_phase_event);
      [exact Hext|apply only_run_extraction_events]
    | apply (only_weaken is_preview);
      [intros []; try discriminate; intros _; apply Hprev|apply only_preview]
    | apply only_set_processed, Hstore
    | apply only_emit, Hext; reflexivity
    | step_comp ].
Qed.





(** X17. With "Upload CSV" chosen a run of [main] never evaluates a
    credential text and never calls the credential check, the service
    builder or the spreadsheet. *)
Theorem csv_mode_never_touches_sheets w ui s :
  data_source ui = UploadCSV ->
  sheet_events (main w ui s).2 = [].
Proof.
  intros Hsrc.
  assert (H : only not_sheet_event (main w ui)).
  { unfold main, load_data, load_csv, search_section, extraction_section,
      results_section, st_success, st_error.
    rewrite Hsrc. main_parts. }
  specialize (H s). unfold sheet_events.
  induction ((main w ui s).2) as [|ev t IH]; [reflexivity|].
  cbn [forallb List.filter] in *. apply andb_prop in H. destruct H as [Hev Ht].
  unfold not_sheet_event in Hev. apply negb_true_iff in Hev.
  rewrite Hev. now apply IH.
Qed.

Lemma csv_mode_never_touches_sheets_witness :
  sheet_events
    (main Sample.two_result_world (Sample.process_click Sample.csv_bytes)
       Scenario.searched_session).2 = [].
Proof.
  apply (csv_mode_never_touches_sheets Sample.two_result_world
           (Sample.process_click Sample.csv_bytes) Scenario.searched_session).
  reflexivity.
Defined.

(** X18. With "Google Sheets" chosen, a run in which "Connect to Google
    Sheets" is not the button pressed does nothing at all: no message, no
    search, no extraction, no export, and the session is left as it was. *)
Theorem sheets_mode_needs_connect w ui s :
  data_source ui = GoogleSheets ->
  connect_clicked ui = false ->
  main w ui s = (Ret tt, s, []).
Proof.
  intros Hsrc Hconnect. unfold main, load_data, bind.
  now rewrite Hsrc, Hconnect.
Qed.

Lemma sheets_mode_needs_connect_witness :
  main Scenario.sheet_world Scenario.sheets_search_click
    Scenario.searched_session
  = (Ret tt, Scenario.searched_session, []).
Proof.
  apply (sheets_mode_needs_connect Scenario.sheet_world
           Scenario.sheets_search_click Scenario.searched_session);
    reflexivity.
Defined.

Lemma bind_run {A B} (m : M A) (k : A -> M B) s :
  bind m k s
  = match (m s).1.1 with
    | Ret a =>
        ((k a (m s).1.2).1.1, (k a (m s).1.2).1.2, (m s).2 ++ (k a (m s).1.2).2)
    | Raise e => (Raise e, (m s).1.2, (m s).2)
    end.
Proof.
  unfold bind. destruct (m s) as [[[a|e] s1] t1]; cbn [fst snd]; [|reflexivity].
  now destruct (k a s1) as [[r s2] t2].
Qed.

Lemma extraction_section_keeps_batch w ui s :
  current_search_results (extraction_section w ui s).1.2
  = current_search_results s.
Proof.
  destruct (tracks_extraction_section w ui s) as (_ & C & _). rewrite C.
  apply no_batch_store_held.
  apply (only_extraction_section not_batch_store);
    [reflexivity|now intros []|reflexivity|now intros []].
Qed.

(** X19. A search started with a key, on a table that loaded and has the
    chosen column, leaves in the session exactly the batch built from that
    column, whatever the session held before and whether or not the rest of
    the run goes through. *)
Theorem search_click_stores_batch w ui s df column :
  run_search_clicked ui = true ->
  is_empty (serp_api_key ui) = false ->
  (load_data w ui s).1.1 = Ret (Some df) ->
  (getitem df (selected_column ui) s).1.1 = Ret column ->
  current_search_results (main w ui s).1.2
  = Some (search_batch w (search_prompt_template ui) (serp_api_key ui) 0 column).
Proof.
  intros Hclick Hkey Hload Hcol.
  unfold main. rewrite bind_run, Hload, keeps_load_data. cbn [fst snd].
  rewrite bind_run. cbn [st_success emit fst snd].
  unfold search_section. rewrite Hclick, Hkey.
  rewrite bind_run, Hcol, keeps_getitem. cbn [fst snd].
  destruct (run_search_spec w (search_prompt_template ui) (serp_api_key ui)
              column s) as (t & H & _).
  rewrite bind_run, H. cbn [fst snd].
  rewrite bind_run. cbn [set_current_search_results bind get put fst snd].
  rewrite bind_run. cbn [st_success emit fst snd].
  apply extraction_section_keeps_batch.
Qed.

Lemma search_click_stores_batch_witness :
  current_search_results
    (main Sample.one_result_world (Sample.search_click Sample.csv_bytes)
       Scenario.searched_session).1.2
  = Some (search_batch Sample.one_result_world
            (lit "Get me information about {entity}") (lit "scraper-key") 0
            [CellStr (lit "Acme")]).
Proof.
  apply (search_click_stores_batch Sample.one_result_world
           (Sample.search_click Sample.csv_bytes) Scenario.searched_session
           Sample.acme_table [CellStr (lit "Acme")]); reflexivity.
Defined.



Lemma search_batch_offline w template api_key column : forall idx,
  (forall i url, exists e, requests_get w i url = Raise e) ->
  search_batch w template api_key idx column = [].
Proof.
  intros idx Hoff. revert idx.
  induction column as [|c rest IH]; intros idx; [reflexivity|].
  cbn [search_batch]. rewrite IH. unfold search_web_result.
  destruct (Hoff idx (search_url (search_query template c) api_key)) as (e & ->).
  reflexivity.
Qed.

(** X21. When every request to the search proxy fails, the search phase
    still tries every row and ends normally with the empty batch. *)
Theorem run_search_offline w template api_key column s :
  (forall i url, exists e, requests_get w i url = Raise e) ->
  (run_search w template api_key column s).1 = (Ret [], s)
  /\ length (http_urls (run_search w template api_key column s).2)
     = length column.
Proof.
  intros Hoff.
  destruct (run_search_requests w template api_key column s) as [Hu _].
  rewrite Hu, length_map. split; [|reflexivity].
  destruct (run_search_spec w template api_key column s) as (t & H & _).
  rewrite H. cbn [fst]. now rewrite search_batch_offline.
Qed.

Lemma run_search_offline_witness :
  (run_search Scenario.offline_world (lit "about {entity}") (lit "k")
     [CellStr (lit "Acme"); CellInt 7] initial_session).1
  = (Ret [], initial_session)
  /\ length
       (http_urls
          (run_search Scenario.offline_world (lit "about {entity}") (lit "k")
             [CellStr (lit "Acme"); CellInt 7] initial_session).2)
     = length [CellStr (lit "Acme"); CellInt 7].
Proof.
  apply (run_search_offline Scenario.offline_world (lit "about {entity}")
           (lit "k") [CellStr (lit "Acme"); CellInt 7] initial_session).
  intros i url. eexists. reflexivity.
Defined.

(** X22. "Run Web Search" pressed without a ScraperAPI key ends the run at
    once: nothing below the button runs, so the language model is not
    called either and the session is left as it was. *)
Theorem search_click_without_key_returns w ui s :
  run_search_clicked ui = true ->
  serp_api_key ui = [] ->
  (main w ui s).1.2 = s
  /\ chat_prompts (main w ui s).2 = []
  /\ http_urls (main w ui s).2 = [].
Proof.
  intros Hclick Hkey.
  assert (Hk : keeps_session (main w ui)).
  { unfold main, search_section, st_success, st_error. rewrite Hclick, Hkey.
    cbn [is_empty]. repeat first [ apply keeps_load_data | step_comp ]. }
  assert (Ho : only not_call_or_store (main w ui)).
  { unfold main, search_section, st_success, st_error. rewrite Hclick, Hkey.
    cbn [is_empty]. main_parts. }
  specialize (Ho s). split; [apply Hk|]. split.
  - apply no_chat_prompts. revert Ho. apply forallb_weaken. now intros [].
  - apply no_http_urls. revert Ho. apply forallb_weaken. now intros [].
Qed.

Lemma search_click_without_key_returns_witness :
  (main Sample.two_result_world Scenario.keyless_search_click
     Scenario.searched_session).1.2 = Scenario.searched_session
  /\ chat_prompts
       (main Sample.two_result_world Scenario.keyless_search_click
          Scenario.searched_session).2 = []
  /\ http_urls
       (main Sample.two_result_world Scenario.keyless_search_click
          Scenario.searched_session).2 = [].
Proof.
  apply (search_click_without_key_returns Sample.two_result_world
           Scenario.keyless_search_click Scenario.searched_session);
    reflexivity.
Defined.

(** X23. A search over a column without rows, in a run of [main]: the empty
    batch replaces whatever batch the session held, no request goes to the
    search proxy, and the extraction is out of reach in that run, so the
    language model is not called and the records held stay. *)
Theorem search_click_on_empty_column w ui s df :
  run_search_clicked ui = true ->
  is_empty (serp_api_key ui) = false ->
  (load_data w ui s).1.1 = Ret (Some df) ->
  (getitem df (selected_column ui) s).1.1 = Ret [] ->
  (main w ui s).1.2 = mkSession (processed_results s) (Some [])
  /\ http_urls (main w ui s).2 = []
  /\ chat_prompts (main w ui s).2 = [].
Proof.
  intros Hclick Hkey Hload Hcol.
  assert (Hl : forallb not_call (load_data w ui s).2 = true).
  { generalize (only_load_events w ui s). apply forallb_weaken. now intros []. }
  assert (Hg : forallb not_call (getitem df (selected_column ui) s).2 = true)
    by apply only_getitem.
  set (s' := mkSession (processed_results s) (Some [])).
  assert (Hr : forallb not_call (results_section w ui s').2 = true).
  { generalize (only_results_events w ui s'). apply forallb_weaken.
    now intros []. }
  pose proof (keeps_results_section w ui s') as Hrs.
  unfold main. rewrite bind_run, Hload, keeps_load_data. cbn [fst snd].
  rewrite bind_run. cbn [st_success emit fst snd].
  unfold search_section. rewrite Hclick, Hkey.
  rewrite bind_run, Hcol, keeps_getitem. cbn [fst snd].
  rewrite bind_run. cbn [run_search search_loop bind emit ret fst snd app].
  rewrite bind_run. cbn [set_current_search_results bind get put fst snd app].
  rewrite bind_run. cbn [st_success emit fst snd].
  unfold extraction_section. rewrite bind_get. cbn [current_search_results].
  fold s'. rewrite Hrs. split; [reflexivity|].
  assert (Hall :
    forallb not_call
      ((load_data w ui s).2
       ++ [EvSuccess (lit "Data loaded successfully!")]
       ++ (getitem df (selected_column ui) s).2
       ++ [EvProgressInit] ++ [EvStoreBatch []]
       ++ [EvSuccess (lit "Web search completed!")]
       ++ (results_section w ui s').2) = true).
  { rewrite !forallb_app, Hl, Hg, Hr. reflexivity. }
  split.
  - apply no_http_urls. revert Hall. apply forallb_weaken. now intros [].
  - apply no_chat_prompts. revert Hall. apply forallb_weaken. now intros [].
Qed.

Lemma search_click_on_empty_column_witness :
  (main Sample.no_row_world (Sample.search_click Sample.csv_bytes)
     Scenario.searched_session).1.2
  = mkSession (processed_results Scenario.searched_session) (Some [])
  /\ http_urls
       (main Sample.no_row_world (Sample.search_click Sample.csv_bytes)
          Scenario.searched_session).2 = []
  /\ chat_prompts
       (main Sample.no_row_world (Sample.search_click Sample.csv_bytes)
          Scenario.searched_session).2 = [].
Proof.
  apply (search_click_on_empty_column Sample.no_row_world
           (Sample.search_click Sample.csv_bytes) Scenario.searched_session
           [(lit "company", [])]); reflexivity.
Defined.

Lemma display_two r0 r1 more s :
  display_search_results (r0 :: r1 :: more) s = (Ret tt, s, [EvPreview r1]).
Proof. reflexivity. Qed.

(** X24. "Process with LLM" pressed with a Groq key, in a run without a new
    search, on a table that loaded: when the first entity of the held batch
    has at least two search results, the records of the whole held batch
    replace the records the session held, and the batch stays. *)
Theorem process_click_stores_records w ui s df first rest r0 r1 more :
  run_search_clicked ui = false ->
  process_clicked ui = true ->
  is_empty (groq_api_key ui) = false ->
  (load_data w ui s).1.1 = Ret (Some df) ->
  current_search_results s = Some (first :: rest) ->
  search_results first = r0 :: r1 :: more ->
  (main w ui s).1
  = (Ret tt,
     mkSession
       (Some (extraction_records w (custom_prompt ui) 0 (first :: rest)))
       (Some (first :: rest))).
Proof.
  intros Hsearch Hclick Hkey Hload Hcur Hfirst.
  unfold main. rewrite bind_run, Hload, keeps_load_data. cbn [fst snd].
  rewrite bind_run. cbn [st_success emit fst snd].
  unfold search_section. rewrite Hsearch.
  unfold extraction_section. rewrite bind_get, Hcur, Hfirst.
  rewrite bind_run, (display_two r0 r1 more s). cbn [fst snd].
  rewrite Hclick, Hkey.
  destruct (run_extraction_spec w (custom_prompt ui) (first :: rest) s)
    as (t & H & _).
  rewrite bind_run, H. cbn [fst snd].
  rewrite bind_run. cbn [set_processed_results bind get put fst snd].
  rewrite bind_run. cbn [st_success emit fst snd].
  rewrite Hcur.
  set (s' := mkSession _ _).
  pose proof (keeps_results_section w ui s') as Hk.
  assert (Hr : (results_section w ui s').1.1 = Ret tt).
  { destruct ((results_section w ui s').1.1) as [[]|e] eqn:E; [reflexivity|].
    now apply (results_section_no_raise (fun _ => False) w ui s') in E. }
  now rewrite Hk, Hr.
Qed.

Lemma process_click_stores_records_witness :
  (main Sample.two_result_world (Sample.process_click Sample.csv_bytes)
     Scenario.searched_session).1
  = (Ret tt,
     mkSession
       (Some (extraction_records Sample.two_result_world (lit "Summarize: ") 0
                [mkBatch (CellStr (lit "Acme"))
                   [Sample.acme_result; Sample.wiki_result]]))
       (Some [mkBatch (CellStr (lit "Acme"))
                [Sample.acme_result; Sample.wiki_result]])).
Proof.
  apply (process_click_stores_records Sample.two_result_world
           (Sample.process_click Sample.csv_bytes) Scenario.searched_session
           Sample.acme_table
           (mkBatch (CellStr (lit "Acme"))
              [Sample.acme_result; Sample.wiki_result]) []
           Sample.acme_result Sample.wiki_result []); reflexivity.
Defined.

(** ** One run of [main] on the session, without a credential text *)

Lemma plain_no_stores t :
  forallb is_plain t = true -> session_stores t = [] /\ chat_prompts t = [].
Proof.
  induction t as [|ev t IH]; [now split|].
  cbn [forallb]. intros [Hev Ht]%andb_prop. destruct (IH Ht) as [Hs Hc].
  unfold session_stores, chat_prompts in *. cbn [List.filter].
  rewrite omap_cons, Hs, Hc. now destruct ev.
Qed.

Lemma session_stores_app t1 t2 :
  session_stores (t1 ++ t2) = session_stores t1 ++ session_stores t2.
Proof. apply List.filter_app. Qed.

Lemma observed_plain {A} (m : M A) s :
  only is_plain m -> keeps_session m -> observed m s = (s, [], []).
Proof.
  intros Ho Hk. unfold observed. rewrite (Hk s).
  now destruct (plain_no_stores _ (Ho s)) as [-> ->].
Qed.

Lemma observed_plain_bind {A B} (m : M A) (k : A -> M B) s :
  only is_plain m -> keeps_session m ->
  observed (bind m k) s
  = match (m s).1.1 with
    | Ret a => observed (k a) s
    | Raise _ => (s, [], [])
    end.
Proof.
  intros Ho Hk. unfold observed. rewrite bind_run.
  destruct (plain_no_stores _ (Ho s)) as [Hs Hc]. specialize (Hk s).
  destruct ((m s).1.1) as [a|e]; cbn [fst snd].
  - now rewrite session_stores_app, chat_prompts_app, Hs, Hc, Hk.
  - now rewrite Hs, Hc, Hk.
Qed.

Lemma observed_store_batch {B} batch (k : unit -> M B) s :
  observed (bind (set_current_search_results batch) k) s
  = let '(s', stores, prompts) :=
      observed (k tt) (mkSession (processed_results s) (Some batch)) in
    (s', EvStoreBatch batch :: stores, prompts).
Proof. unfold observed. rewrite bind_run. reflexivity. Qed.

Lemma observed_store_records {B} records (k : unit -> M B) s :
  observed (bind (set_processed_results records) k) s
  = let '(s', stores, prompts) :=
      observed (k tt) (mkSession (Some records) (current_search_results s)) in
    (s', EvStoreProcessed records :: stores, prompts).
Proof. unfold observed. rewrite bind_run. reflexivity. Qed.

Lemma extraction_events_no_stores t :
  forallb is_extraction_phase_event t = true -> session_stores t = [].
Proof.
  induction t as [|ev t IH]; [reflexivity|].
  cbn [forallb]. intros [Hev Ht]%andb_prop.
  unfold session_stores in *. cbn [List.filter].
  rewrite (IH Ht). now destruct ev.
Qed.

Lemma run_extraction_observed w prompt batch s :
  (run_extraction w prompt batch s).1
  = (Ret (extraction_records w prompt 0 batch), s)
  /\ session_stores (run_extraction w prompt batch s).2 = []
  /\ chat_prompts (run_extraction w prompt batch s).2
     = List.map (fun r => build_prompt prompt (search_results r)) batch.
Proof.
  pose proof (only_run_extraction_events w prompt batch s) as Ho.
  destruct (run_extraction_spec w prompt batch s) as (t & H & E).
  rewrite H in *. cbn [fst snd] in *. split; [reflexivity|]. split.
  - now apply extraction_events_no_stores.
  - rewrite <- chat_prompts_effects, E.
    change (EvProgressInit :: ?l) with ([EvProgressInit] ++ l).
    rewrite chat_prompts_app. apply chat_extraction_events.
Qed.

Lemma observed_run_extraction {B} w prompt batch
    (k : list ExtractionRecord -> M B) s :
  observed (bind (run_extraction w prompt batch) k) s
  = let '(s', stores, prompts) :=
      observed (k (extraction_records w prompt 0 batch)) s in
    (s', stores,
     List.map (fun r => build_prompt prompt (search_results r)) batch
     ++ prompts).
Proof.
  unfold observed. rewrite bind_run.
  destruct (run_extraction_observed w prompt batch s) as (H & Hs & Hc).
  apply (f_equal fst) in H as H1. apply (f_equal snd) in H as H2.
  cbn [fst snd] in H1, H2. rewrite H1, H2. cbn [fst snd].
  now rewrite session_stores_app, chat_prompts_app, Hs, Hc.
Qed.

Lemma results_section_csv w ui s :
  data_source ui = UploadCSV -> results_section w ui s = (Ret tt, s, []).
Proof.
  intros Hcsv. unfold results_section. rewrite bind_get, Hcsv.
  now destruct (processed_results s) as [[|r records]|].
Qed.

Lemma session_eta s :
  mkSession (processed_results s) (current_search_results s) = s.
Proof. now destruct s. Qed.

Lemma observed_extraction_section w ui s :
  data_source ui = UploadCSV ->
  observed (extraction_section w ui) s
  = (mkSession
       (match phase_records w ui (current_search_results s) with
        | Some records => Some records
        | None => processed_results s
        end)
       (current_search_results s),
     match phase_records w ui (current_search_results s) with
     | Some records => [EvStoreProcessed records]
     | None => []
     end,
     match phase_records w ui (current_search_results s),
           current_search_results s with
     | Some _, Some batch =>
         List.map (fun r => build_prompt (custom_prompt ui) (search_results r))
           batch
     | _, _ => []
     end).
Proof.
  intros Hcsv.
  assert (Hres : forall s', observed (results_section w ui) s' = (s', [], []))
    by (intros s'; unfold observed; now rewrite results_section_csv).
  assert (Hnone : phase_records w ui (current_search_results s) = None ->
                  observed (extraction_section w ui) s = (s, [], []) ->
                  observed (extraction_section w ui) s
                  = (mkSession
                       (match phase_records w ui (current_search_results s) with
                        | Some records => Some records
                        | None => processed_results s
                        end) (current_search_results s),
                     match phase_records w ui (current_search_results s) with
                     | Some records => [EvStoreProcessed records]
                     | None => []
                     end,
                     match phase_records w ui (current_search_results s),
                           current_search_results s with
                     | Some _, Some batch =>
                         List.map
                           (fun r => build_prompt (custom_prompt ui)
                                       (search_results r)) batch
                     | _, _ => []
                     end)).
  { intros -> ->. now rewrite session_eta. }
  assert (Hunfold : observed (extraction_section w ui) s
                    = observed
                        (match current_search_results s with
                         | Some ((first_result :: _) as batch) =>
                             display_search_results (search_results first_result) ;;
                             if process_clicked ui then
                               if is_empty (groq_api_key ui) then
                                 st_error (lit "Please provide Groq API key")
                               else
                                 results <- run_extraction w (custom_prompt ui) batch ;;
                                 set_processed_results results ;;
                                 st_success (lit "LLM processing completed!") ;;
                                 results_section w ui
                             else results_section w ui
                         | _ => results_section w ui
                         end) s).
  { unfold observed, extraction_section. now rewrite bind_get. }
  unfold phase_records in *.
  destruct (current_search_results s) as [[|first rest]|] eqn:Hcur.
  - apply Hnone; [now destruct (_ && _)|]. rewrite Hunfold. apply Hres.
  - rewrite Hunfold in *.
    rewrite observed_plain_bind in * by (apply only_display || apply keeps_display).
    unfold display_search_results, py_index in *.
    destruct (search_results first) as [|r0 [|r1 more]] eqn:Hfirst;
      cbn [lookup list_lookup bind ret raise emit fst snd] in *.
    + apply Hnone; [now destruct (_ && _)|reflexivity].
    + apply Hnone; [now destruct (_ && _)|reflexivity].
    + destruct (process_clicked ui); cbn [andb] in *;
        [|apply Hnone; [reflexivity|apply Hres]].
      destruct (is_empty (groq_api_key ui)); cbn [negb] in *.
      * apply Hnone; [reflexivity|].
        apply observed_plain; [apply only_emit|apply keeps_emit]; reflexivity.
      * clear Hnone Hunfold.
        rewrite observed_run_extraction, observed_store_records.
        rewrite observed_plain_bind
          by (apply only_emit || apply keeps_emit; reflexivity).
        cbn [st_success emit fst snd]. rewrite Hres.
        cbn [current_search_results]. rewrite Hcur. now rewrite app_nil_r.
  - apply Hnone; [now destruct (_ && _)|]. rewrite Hunfold. apply Hres.
Qed.

Lemma load_data_csv_outcome w ui s :
  data_source ui = UploadCSV ->
  (load_data w ui s).1.1 = (load_data w ui initial_session).1.1.
Proof.
  intros Hcsv. unfold load_data. rewrite Hcsv.
  destruct (uploaded_file ui) as [file|]; [|reflexivity].
  unfold load_csv, try_catch, try_except, bind, call.
  destruct (read_csv w file Utf8) as [df|e]; [reflexivity|].
  destruct (is_unicode_decode_error e); [|reflexivity].
  now destruct (read_csv w file Latin1).
Qed.

Lemma getitem_outcome df label s s' :
  (getitem df label s).1.1 = (getitem df label s').1.1.
Proof.
  induction df as [|[name values] df IH]; cbn [getitem]; [reflexivity|].
  now destruct (decide (name = label)).
Qed.

Lemma observed_main w ui s :
  data_source ui = UploadCSV ->
  observed (main w ui) s
  = (session_after w ui s, stores_of_run w ui s, prompts_of_run w ui s).
Proof.
  intros Hcsv.
  unfold session_after, stores_of_run, prompts_of_run, batch_held,
    extracted_records, reaches_extraction, searched_batch, chosen_column,
    loaded_table.
  unfold main.
  rewrite observed_plain_bind by (apply only_load_data || apply keeps_load_data).
  rewrite (load_data_csv_outcome w ui s Hcsv).
  destruct ((load_data w ui initial_session).1.1) as [[df|]|e];
    [|destruct (_ && _); now rewrite session_eta..].
  rewrite observed_plain_bind
    by (apply only_emit || apply keeps_emit; reflexivity).
  cbn [st_success emit fst].
  unfold search_section.
  destruct (run_search_clicked ui); cbn [andb].
  - destruct (is_empty (serp_api_key ui)); cbn [negb].
    + rewrite session_eta.
      apply observed_plain; [apply only_emit|apply keeps_emit]; reflexivity.
    + rewrite observed_plain_bind by (apply only_getitem || apply keeps_getitem).
      rewrite (getitem_outcome df (selected_column ui) s initial_session).
      destruct ((getitem df (selected_column ui) initial_session).1.1)
        as [column|e]; [|now rewrite session_eta].
      rewrite observed_plain_bind
        by (apply only_run_search; exact (fun _ H => H))
           || apply keeps_run_search.
      destruct (run_search_spec w (search_prompt_template ui) (serp_api_key ui)
                  column s) as (t & H & _).
      rewrite H. cbn [fst].
      rewrite observed_store_batch.
      rewrite observed_plain_bind
        by (apply only_emit || apply keeps_emit; reflexivity).
      cbn [st_success emit fst].
      rewrite (observed_extraction_section w ui _ Hcsv).
      cbn [current_search_results processed_results].
      now destruct (phase_records w ui _).
  - rewrite (observed_extraction_section w ui s Hcsv).
    now destruct (phase_records w ui _).
Qed.

(** X25. With "Upload CSV" chosen, a run of [main] from any session does
    this to the session and nothing more.  If the search phase runs, it
    assigns once the batch built from this run's own column; otherwise the batch held stays.  If the extraction phase
    runs, it calls the language model once per entry of the batch then held
    and assigns once the records of that whole batch; otherwise the records
    held stay.  Neither collection is built from the one it replaces. *)
Theorem main_session_step w ui s :
  data_source ui = UploadCSV ->
  (main w ui s).1.2 = session_after w ui s
  /\ session_stores (main w ui s).2 = stores_of_run w ui s
  /\ chat_prompts (main w ui s).2 = prompts_of_run w ui s.
Proof.
  intros Hcsv. pose proof (observed_main w ui s Hcsv) as H.
  unfold observed in H. now injection H as -> -> ->.
Qed.

Lemma main_session_step_witness :
  (main Sample.two_result_world (Sample.search_click Sample.csv_bytes)
     Scenario.searched_session).1.2
  = session_after Sample.two_result_world (Sample.search_click Sample.csv_bytes)
      Scenario.searched_session
  /\ session_stores
       (main Sample.two_result_world (Sample.search_click Sample.csv_bytes)
          Scenario.searched_session).2
     = stores_of_run Sample.two_result_world
         (Sample.search_click Sample.csv_bytes) Scenario.searched_session
  /\ chat_prompts
       (main Sample.two_result_world (Sample.search_click Sample.csv_bytes)
          Scenario.searched_session).2
     = prompts_of_run Sample.two_result_world
         (Sample.search_click Sample.csv_bytes) Scenario.searched_session.
Proof.
  apply (main_session_step Sample.two_result_world
           (Sample.search_click Sample.csv_bytes) Scenario.searched_session).
  reflexivity.
Defined.

(** ** A history of runs without a credential text *)

Lemma main_current_csv w ui s :
  data_source ui = UploadCSV ->
  current_search_results (main w ui s).1.2 = batch_held w ui s.
Proof.
  intros Hcsv. pose proof (observed_main w ui s Hcsv) as H.
  unfold observed in H. injection H as -> _ _. reflexivity.
Qed.

Lemma run_script_current runs : forall s,
  Forall csv_run runs ->
  current_search_results (run_script runs s).1
  = latest_search runs (current_search_results s).
Proof.
  induction runs as [|[w ui] runs IH]; intros s Hall; [reflexivity|].
  apply Forall_cons in Hall as [Hrun Hall]. cbn [run_script latest_search].
  pose proof (main_current_csv w ui s Hrun) as Hc.
  destruct (main w ui s) as [[o s1] t1]. cbn [fst snd] in Hc.
  specialize (IH s1 Hall).
  destruct (run_script runs s1) as [s2 t2]. cbn [fst] in *.
  now rewrite IH, Hc.
Qed.

Lemma latest_search_app runs1 runs2 before :
  latest_search (runs1 ++ runs2) before
  = latest_search runs2 (latest_search runs1 before).
Proof.
  revert before. induction runs1 as [|[w ui] runs1 IH]; intros before;
    [reflexivity|].
  cbn [app latest_search]. apply IH.
Qed.

(** X26. Over a history of runs with "Upload CSV" chosen, from a new tab:
    the batch the session holds is the one built by the most recent search
    phase, none if no search phase has run; and in a further such run the
    language model is called only for the entries of the batch built by the
    most recent search phase, this run's included, so not at all while no
    search phase has run. *)
Theorem csv_history_follows_latest_search runs w ui :
  Forall csv_run runs -> data_source ui = UploadCSV ->
  current_search_results (run_script runs initial_session).1
  = latest_search runs None
  /\ chat_prompts (main w ui (run_script runs initial_session).1).2
     = match extracted_records w ui (latest_search (runs ++ [(w, ui)]) None),
             latest_search (runs ++ [(w, ui)]) None with
       | Some _, Some batch =>
           List.map
             (fun r => build_prompt (custom_prompt ui) (search_results r))
             batch
       | _, _ => []
       end.
Proof.
  intros Hall Hcsv.
  pose proof (run_script_current runs initial_session Hall) as Hcur.
  split; [exact Hcur|].
  pose proof (observed_main w ui (run_script runs initial_session).1 Hcsv) as H.
  unfold observed in H. injection H as _ _ ->.
  rewrite latest_search_app. cbn [latest_search].
  unfold prompts_of_run, batch_held. now rewrite Hcur.
Qed.

Lemma csv_history_follows_latest_search_witness :
  current_search_results
    (run_script
       [(Sample.two_result_world, Sample.search_click Sample.csv_bytes)]
       initial_session).1
  = latest_search
      [(Sample.two_result_world, Sample.search_click Sample.csv_bytes)] None
  /\ chat_prompts
       (main Sample.two_result_world (Sample.process_click Sample.csv_bytes)
          (run_script
             [(Sample.two_result_world, Sample.search_click Sample.csv_bytes)]
             initial_session).1).2
     = match
         extracted_records Sample.two_result_world
           (Sample.process_click Sample.csv_bytes)
           (latest_search
              ([(Sample.two_result_world,
                 Sample.search_click Sample.csv_bytes)]
               ++ [(Sample.two_result_world,
                    Sample.process_click Sample.csv_bytes)]) None),
         latest_search
           ([(Sample.two_result_world, Sample.search_click Sample.csv_bytes)]
            ++ [(Sample.two_result_world,
                 Sample.process_click Sample.csv_bytes)]) None
       with
       | Some _, Some batch =>
           List.map
             (fun r => build_prompt (lit "Summarize: ") (search_results r))
             batch
       | _, _ => []
       end.
Proof.
  apply (csv_history_follows_latest_search
           [(Sample.two_result_world, Sample.search_click Sample.csv_bytes)]
           Sample.two_result_world (Sample.process_click Sample.csv_bytes)).
  - repeat constructor.
  - reflexivity.
Defined.

(** The history of the witness does call the language model, for the batch
    of its one search. *)
Example latest_search_is_extracted :
  chat_prompts
    (main Sample.two_result_world (Sample.process_click Sample.csv_bytes)
       (run_script
          [(Sample.two_result_world, Sample.search_click Sample.csv_bytes)]
          initial_session).1).2
  = [build_prompt (lit "Summarize: ") [Sample.acme_result; Sample.wiki_result]].
Proof. vm_compute. reflexivity. Qed.
